(** * Stone / Paper / Scissor backend: OTP login, bearer gate, game rounds

    A shallow embedding of [server.js] (with the two Mongoose schemas
    [models/User.js] and [models/Game.js]) and the properties of its routes.

    Conventions of the embedding:
    - a JavaScript string is a [string] of code units below 256;
    - a parsed JSON value is a [value]; its numbers are IEEE doubles
      ([spec_float]);
    - the double arithmetic of [Math.random() * n] and [1000 + x] is carried
      out exactly on a fixed-point grid and rounded to nearest-even with a
      53 bit significand ([Double]);
    - [Date] values are millisecond counts in [Z];
    - the two collections are explicit state, threaded through every route
      handler; what a handler reads from its environment (clock, random
      draw, salt, fresh document key) is an explicit [Env];
    - [bcryptjs] and [jsonwebtoken] are an interface ([Crypto]). *)

From Stdlib Require Import ZArith Lia Ascii String SpecFloat.
From stdpp Require Import base option list strings gmap sorting.

Local Open Scope Z_scope.

(** ** JavaScript strings *)

Module JsString.

(** [WhiteSpace] and [LineTerminator] code units below 256: TAB, LF, VT,
    FF, CR, SP and NBSP. These are what [String.prototype.trim] strips. *)
Definition is_white (c : ascii) : bool :=
  let n := N_of_ascii c in
  ((9 <=? n) && (n <=? 13) || (n =? 32) || (n =? 160))%N.

(** The class [\d] of a regular expression: the ten ASCII digits. *)
Definition is_digit (c : ascii) : bool :=
  let n := N_of_ascii c in ((48 <=? n) && (n <=? 57))%N.

Fixpoint trimStart (s : string) : string :=
  match s with
  | EmptyString => EmptyString
  | String c s' => if is_white c then trimStart s' else s
  end.

Fixpoint trimEnd (s : string) : string :=
  match s with
  | EmptyString => EmptyString
  | String c s' =>
      match trimEnd s' with
      | EmptyString => if is_white c then EmptyString else String c EmptyString
      | t => String c t
      end
  end.

(** [s.trim()] *)
Definition trim (s : string) : string := trimEnd (trimStart s).

Fixpoint all_digits (s : string) : bool :=
  match s with
  | EmptyString => true
  | String c s' => is_digit c && all_digits s'
  end.

(** [/^\d{k}$/.test(s)]: without the [m] flag [$] only matches at the end
    of the input, so the test holds exactly for [k] digits and nothing
    else. *)
Definition test_digits (k : nat) (s : string) : bool :=
  (String.length s =? k)%nat && all_digits s.

(** [s.split(" ")]: the pieces between single spaces; never empty. *)
Fixpoint split_space (s : string) : list string :=
  match s with
  | EmptyString => [EmptyString]
  | String c s' =>
      if Ascii.eqb c " " then EmptyString :: split_space s'
      else match split_space s' with
           | piece :: rest => String c piece :: rest
           | [] => [String c EmptyString]
           end
  end.

Definition digit_char (d : Z) : ascii := ascii_of_N (48 + Z.to_N d).

Fixpoint digits_of (fuel : nat) (n : Z) (acc : string) : string :=
  match fuel with
  | O => acc
  | S fuel' =>
      let acc' := String (digit_char (n mod 10)) acc in
      if n / 10 =? 0 then acc' else digits_of fuel' (n / 10) acc'
  end.

(** [n.toString()] for an integral [n] with [0 <= n < 1e21]: its decimal
    digits, no sign, no exponent. *)
Definition toString (n : Z) : string :=
  digits_of (S (Z.to_nat (Z.log2 n))) n EmptyString.

End JsString.

(** ** Doubles on a fixed-point grid

    Every finite double is a multiple of [2^-1074]. A non-negative double
    [x] is held as the integer [x * 2^1074]; sums and products of such
    values are computed exactly and then rounded to the nearest double,
    ties to even. Overflow to [Infinity] is not represented: the values of
    this program stay below [2^14]. *)

Module Double.

Definition emin : Z := 1074.
Definition prec : Z := 53.

(** The double [1.0]. *)
Definition one : Z := 2 ^ emin.

(** The double of a small non-negative integer literal. *)
Definition of_int (n : Z) : Z := n * one.

(** [n / 2^e] rounded to the nearest integer, ties to even. *)
Definition rne (n e : Z) : Z :=
  let q := n / 2 ^ e in
  let r := n mod 2 ^ e in
  match 2 * r ?= 2 ^ e with
  | Lt => q
  | Gt => q + 1
  | Eq => if Z.even q then q else q + 1
  end.

(** [round lo n]: the double nearest to the real [n * 2^-(emin + lo)], as a
    multiple of [2^-emin]. The unit in the last place is [2^(e - lo)] grid
    steps, where [e = ulp_exp lo n] keeps 53 significant bits and never
    goes below the grid (subnormals). *)
Definition ulp_exp (lo n : Z) : Z := Z.max lo (Z.log2 n - (prec - 1)).

Definition round (lo n : Z) : Z :=
  let e := ulp_exp lo n in
  rne n e * 2 ^ (e - lo).

(** [x + y] *)
Definition add (x y : Z) : Z := round 0 (x + y).

(** [x * y]: the exact product lives on the grid of step [2^-(2*emin)]. *)
Definition mul (x y : Z) : Z := round emin (x * y).

(** [Math.floor(x)], an integer. *)
Definition floor (x : Z) : Z := x / one.

(** [x] is (the image of) a double. *)
Definition representable (x : Z) : Prop := round 0 x = x.

(** What [Math.random()] may return: a double [r] with [0 <= r < 1]. *)
Definition is_random (r : Z) : Prop := 0 <= r < one /\ representable r.

Definition is_randomb (r : Z) : bool :=
  (0 <=? r) && (r <? one) && (round 0 r =? r).

(** The grid value of a non-negative finite [spec_float], to compare [add]
    and [mul] with the Standard Library's binary64 operations. *)
Definition to_grid (x : spec_float) : option Z :=
  match x with
  | S754_zero _ => Some 0
  | S754_finite false m e =>
      if - emin <=? e then Some (Z.pos m * 2 ^ (e + emin)) else None
  | _ => None
  end.

Definition binary64_mul : spec_float -> spec_float -> spec_float := SFmul prec 1024.
Definition binary64_add : spec_float -> spec_float -> spec_float := SFadd prec 1024.

End Double.

(** ** Parsed JSON values *)

#[local] Set Warnings "-register-all".

Inductive value : Type :=
  | VUndefined
  | VNull
  | VBool (b : bool)
  | VNum (x : spec_float)
  | VStr (s : string)
  | VArr (items : list value)
  | VObj (fields : list (string * value)).

(** [ToBoolean]: what [!v] negates. *)
Definition truthy (v : value) : bool :=
  match v with
  | VUndefined | VNull => false
  | VBool b => b
  | VNum (S754_zero _) | VNum S754_nan => false
  | VNum _ => true
  | VStr s => negb (String.eqb s "")
  | VArr _ | VObj _ => true
  end.

Definition is_string (v : value) : bool :=
  match v with VStr _ => true | _ => false end.

(** An own property of a parsed object (keys are unique after parsing). *)
Fixpoint own_property (k : string) (fields : list (string * value)) : value :=
  match fields with
  | [] => VUndefined
  | (k', v) :: rest => if String.eqb k k' then v else own_property k rest
  end.

(** ** The two collections

    [models/User.js]: the unique index on [mobile] makes the collection a
    finite map from the mobile number to the rest of the document.
    [models/Game.js]: one document per round, in insertion order. *)

Definition ObjectId : Type := N.
Definition Date : Type := Z.

Record User : Type := mkUser {
  user_id : ObjectId;
  otpHash : option string;
  otpExpiry : option Date;
  user_createdAt : Date
}.

Record Game : Type := mkGame {
  game_id : ObjectId;
  userId : ObjectId;
  userChoice : string;
  computerChoice : string;
  result : string;
  createdAt : Date
}.

Record Store : Type := mkStore {
  users : gmap string User;
  games : list Game
}.

(** ** Requests, responses and the environment of one request *)

Record Request : Type := mkRequest {
  authorization : option string;   (* req.headers["authorization"] *)
  body : value                     (* req.body, after express.json() *)
}.

Record Stats : Type := mkStats { win : nat; lose : nat; draw : nat }.

Inductive Payload : Type :=
  | ErrorBody (error : string)
  | OtpBody (message otp : string)
  | TokenBody (token : string)
  | PlayBody (userChoice computerChoice : value) (result : string)
  | HistoryBody (history : list Game)
  | StatsBody (stats : Stats).

Record Response : Type := mkResponse { status : Z; json : Payload }.

(** [res.status(code).json({ error })] and [res.json(payload)]. *)
Definition error_response (code : Z) (msg : string) : Response :=
  mkResponse code (ErrorBody msg).
Definition ok_response (p : Payload) : Response := mkResponse 200 p.

Record Env : Type := mkEnv {
  now : Date;          (* the clock: Date.now(), new Date(), jwt's clock *)
  created : Date;      (* the clock when a new document is constructed *)
  random : Z;          (* Math.random(), on the grid of [Double] *)
  salt : string;       (* the salt bcrypt.hash draws *)
  fresh_id : ObjectId  (* the _id of a newly constructed document *)
}.

(** ** bcryptjs and jsonwebtoken

    The process-wide [JWT_SECRET] is part of [jwt_sign] and [jwt_verify].
    [jwt_verify token clock] is [Some userId] when the token verifies
    against the secret and is unexpired at [clock], and [None] when
    [jwt.verify] throws. The secret is taken to sign only what line 127
    signs, a payload [{ userId }] holding the [_id] of an Identity: a
    token that verifies but carries no usable [userId] (line 51 reads
    [decoded.userId] unchecked), like a store operation that rejects, is
    outside this model, and no statement below is about the 500 those
    cases lead to. The two laws are what the libraries document:
    a hash compares equal to its own input, and the empty string is not a
    token ("jwt must be provided"). *)

Class Crypto : Type := {
  bcrypt_hash : string -> string -> string;
  bcrypt_compare : string -> string -> bool;
  jwt_sign : ObjectId -> Date -> string;
  jwt_verify : string -> Date -> option ObjectId;
  bcrypt_compare_hash :
    forall data salt, bcrypt_compare data (bcrypt_hash data salt) = true;
  jwt_verify_empty : forall clock, jwt_verify EmptyString clock = None
}.

(** ** Route handlers as store transformers with early exit

    A handler step either goes on with a value, has sent its response
    ([return res.status(..).json(..)]), or has thrown; the store written so
    far is kept in each case. *)

Inductive Step (A : Type) : Type :=
  | Next (a : A) (st : Store)
  | Sent (r : Response) (st : Store)
  | Thrown (st : Store).
Arguments Next {A} a st.
Arguments Sent {A} r st.
Arguments Thrown {A} st.

Definition Handler (A : Type) : Type := Store -> Step A.

#[global] Instance Handler_ret : MRet Handler := fun A a st => Next a st.
#[global] Instance Handler_bind : MBind Handler := fun A B f m st =>
  match m st with
  | Next a st' => f a st'
  | Sent r st' => Sent r st'
  | Thrown st' => Thrown st'
  end.

Definition send {A} (r : Response) : Handler A := fun st => Sent r st.
Definition throw {A} : Handler A := fun st => Thrown st.

(** [if (c) return res.status(code).json({ error: msg });] *)
Definition reject_if (c : bool) (code : Z) (msg : string) : Handler unit :=
  if c then send (error_response code msg) else mret tt.

(** [try { ... } catch (err) { res.status(500).json({ error: "Server error" }) }] *)
Definition try_catch (h : Handler Response) (st : Store) : Store * Response :=
  match h st with
  | Next r st' => (st', r)
  | Sent r st' => (st', r)
  | Thrown st' => (st', error_response 500 "Server error")
  end.

(** [req.body.k] for the keys read here ([mobile], [otp], [choice]), none of
    which any prototype defines: destructuring [undefined] or [null]
    throws, an object yields its own property, anything else [undefined]. *)
Definition property (k : string) (v : value) : Handler value :=
  match v with
  | VUndefined | VNull => throw
  | VObj fields => mret (own_property k fields)
  | _ => mret VUndefined
  end.

(** [v.trim()]: only strings have the method; on any other truthy value the
    call throws a [TypeError]. *)
Definition call_trim (v : value) : Handler string :=
  match v with
  | VStr s => mret (JsString.trim s)
  | _ => throw
  end.

(** [User.findOne({ mobile })], [user.save()] and [game.save()]. *)
Definition findOne (mobile : string) : Handler (option User) :=
  fun st => Next (users st !! mobile) st.
Definition save_user (mobile : string) (u : User) : Handler unit :=
  fun st => Next tt (mkStore (<[mobile := u]> (users st)) (games st)).
Definition save_game (g : Game) : Handler unit :=
  fun st => Next tt (mkStore (users st) (games st ++ [g])).
Definition find_games (uid : ObjectId) : Handler (list Game) :=
  fun st => Next (filter (fun g => userId g = uid) (games st)) st.

(** ** server.js *)

(** [const choices = ["stone", "paper", "scissor"];] *)
Definition choices : list string := ["stone"; "paper"; "scissor"].

(** [choices.includes(v)] *)
Definition includes (l : list string) (v : value) : bool :=
  match v with
  | VStr s => existsb (String.eqb s) l
  | _ => false
  end.

(** [choices[i]] for an integral index [i >= 0]. *)
Definition element (l : list string) (i : Z) : value :=
  match l !! Z.to_nat i with
  | Some s => VStr s
  | None => VUndefined
  end.

(** [a === b] where [b] is a string or [undefined]. *)
Definition strict_eq (a b : value) : bool :=
  match a, b with
  | VStr s, VStr t => String.eqb s t
  | VUndefined, VUndefined => true
  | _, _ => false
  end.

(** Lines 148-158 of [server.js]: the outcome of a round. *)
Definition judge (userChoice computerChoice : value) : string :=
  if strict_eq userChoice computerChoice then "draw"
  else if strict_eq userChoice (VStr "stone") && strict_eq computerChoice (VStr "scissor")
          || strict_eq userChoice (VStr "paper") && strict_eq computerChoice (VStr "stone")
          || strict_eq userChoice (VStr "scissor") && strict_eq computerChoice (VStr "paper")
  then "win"
  else "lose".

(** [new Game({ userId, userChoice, computerChoice, result })] followed by
    [game.save()]: both choices are required strings, so the save rejects
    (throws) when one of them is not there. *)
Definition create_game (env : Env) (uid : ObjectId)
    (userChoice computerChoice : value) (result : string) : Handler unit :=
  match userChoice, computerChoice with
  | VStr uc, VStr cc =>
      save_game (mkGame (fresh_id env) uid uc cc result (created env))
  | _, _ => throw
  end.

(** [.sort({ createdAt: -1 })]: no round comes before a newer one. *)
Definition newest_first : relation Game :=
  fun a b => createdAt b <= createdAt a.

#[global] Instance newest_first_dec : RelDecision newest_first :=
  fun a b => Z_le_dec (createdAt b) (createdAt a).

(** [if (stats[g.result] !== undefined) stats[g.result]++;] on
    [{ win: 0, lose: 0, draw: 0 }]. A result that is none of the three keys
    is either undefined in [stats] (skipped) or inherited from
    [Object.prototype]; the increment then writes a property of that other
    name. The three counters are left alone in both cases. *)
Definition tally (stats : Stats) (g : Game) : Stats :=
  if String.eqb (result g) "win" then mkStats (S (win stats)) (lose stats) (draw stats)
  else if String.eqb (result g) "lose" then mkStats (win stats) (S (lose stats)) (draw stats)
  else if String.eqb (result g) "draw" then mkStats (win stats) (lose stats) (S (draw stats))
  else stats.

(** [user.otpHash = null; user.otpExpiry = null;] *)
Definition clear_otp (user : User) : User :=
  mkUser (user_id user) None None (user_createdAt user).

(** [Math.floor(1000 + Math.random() * 9000)] *)
Definition issue_code (random : Z) : Z :=
  Double.floor (Double.add (Double.of_int 1000)
                           (Double.mul random (Double.of_int 9000))).

(** [Math.floor(Math.random() * choices.length)] *)
Definition draw_index (random : Z) : Z :=
  Double.floor (Double.mul random (Double.of_int (Z.of_nat (length choices)))).

Section Server.
Context `{crypto : Crypto}.

(** Lines 42-57. *)
Definition authMiddleware (env : Env) (req : Request) : Handler ObjectId :=
  match authorization req with
  | None => send (error_response 401 "No token provided")
  | Some authHeader =>
      reject_if (String.eqb authHeader "") 401 "No token provided";;
      match JsString.split_space authHeader !! 1%nat with
      | None => send (error_response 401 "No token provided")
      | Some token =>
          reject_if (String.eqb token "") 401 "No token provided";;
          match jwt_verify token (now env) with
          | Some decoded_userId => mret decoded_userId
          | None => send (error_response 401 "Invalid or expired token")
          end
      end
  end.

(** [app.post("/auth/request-otp", ...)], lines 62-94. *)
Definition request_otp (env : Env) (req : Request) : Store -> Store * Response :=
  try_catch (
    mobile ← property "mobile" (body req);
    reject_if (negb (truthy mobile)) 400 "Mobile required";;
    mobile ← call_trim mobile;
    reject_if (negb (JsString.test_digits 10 mobile)) 400
      "Invalid mobile number format (10 digits required)";;
    let otp := JsString.toString (issue_code (random env)) in
    let otpHash := bcrypt_hash otp (salt env) in
    let otpExpiry := now env + 2 * 60 * 1000 in
    found ← findOne mobile;
    let user :=
      match found with
      | Some user => user
      | None => mkUser (fresh_id env) None None (created env)
      end in
    save_user mobile
      (mkUser (user_id user) (Some otpHash) (Some otpExpiry) (user_createdAt user));;
    send (ok_response (OtpBody "OTP sent" otp))).

(** [!user.otpExpiry || user.otpExpiry < new Date()] *)
Definition otp_expired (user : User) (clock : Date) : bool :=
  match otpExpiry user with
  | None => true
  | Some expiry => expiry <? clock
  end.

(** [bcrypt.compare(otp, user.otpHash)]: rejects (throws) when the stored
    hash is not a string. *)
Definition compare_otp (otp : string) (user : User) : Handler bool :=
  match otpHash user with
  | Some hash => mret (bcrypt_compare otp hash)
  | None => throw
  end.

(** [app.post("/auth/verify-otp", ...)], lines 97-134. *)
Definition verify_otp (env : Env) (req : Request) : Store -> Store * Response :=
  try_catch (
    mobile ← property "mobile" (body req);
    otp ← property "otp" (body req);
    reject_if (negb (truthy mobile) || negb (truthy otp)) 400
      "Mobile and OTP required";;
    mobile ← call_trim mobile;
    otp ← call_trim otp;
    reject_if (negb (JsString.test_digits 10 mobile) || negb (JsString.test_digits 4 otp))
      400 "Invalid mobile or OTP format";;
    found ← findOne mobile;
    match found with
    | None => send (error_response 400 "User not found")
    | Some user =>
        reject_if (otp_expired user (now env)) 400 "OTP expired";;
        isMatch ← compare_otp otp user;
        reject_if (negb isMatch) 400 "Invalid OTP";;
        save_user mobile (clear_otp user);;
        send (ok_response (TokenBody (jwt_sign (user_id user) (now env))))
    end).

(** The handler of [app.post("/play", authMiddleware, ...)], lines 140-169. *)
Definition play (env : Env) (req : Request) (uid : ObjectId) : Store -> Store * Response :=
  try_catch (
    userChoice ← property "choice" (body req);
    reject_if (negb (includes choices userChoice)) 400 "Invalid choice";;
    let computerChoice := element choices (draw_index (random env)) in
    let result := judge userChoice computerChoice in
    create_game env uid userChoice computerChoice result;;
    send (ok_response (PlayBody userChoice computerChoice result))).

(** [Game.find({ userId }).sort({ createdAt: -1 }).limit(10)] *)
Definition recent_games (uid : ObjectId) : Handler (list Game) :=
  fun st =>
    Next (take 10 (merge_sort newest_first
                     (filter (fun g => userId g = uid) (games st)))) st.

(** The handler of [app.get("/history", authMiddleware, ...)], lines 172-183. *)
Definition history (uid : ObjectId) : Store -> Store * Response :=
  try_catch (
    history ← recent_games uid;
    send (ok_response (HistoryBody history))).

(** The handler of [app.get("/scoreboard", authMiddleware, ...)], lines 186-199. *)
Definition scoreboard (uid : ObjectId) : Store -> Store * Response :=
  try_catch (
    games ← find_games uid;
    let stats := foldl tally (mkStats 0 0 0) games in
    send (ok_response (StatsBody stats))).

(** A route behind [authMiddleware]: the handler runs only after [next()]. *)
Definition guarded (env : Env) (req : Request)
    (handler : ObjectId -> Store -> Store * Response) : Store -> Store * Response :=
  fun st =>
    match authMiddleware env req st with
    | Next uid st' => handler uid st'
    | Sent r st' => (st', r)
    | Thrown st' => (st', error_response 500 "Server error")
    end.

Inductive Route : Type :=
  | PostRequestOtp
  | PostVerifyOtp
  | PostPlay
  | GetHistory
  | GetScoreboard.

Definition app (route : Route) (env : Env) (req : Request) : Store -> Store * Response :=
  match route with
  | PostRequestOtp => request_otp env req
  | PostVerifyOtp => verify_otp env req
  | PostPlay => guarded env req (play env req)
  | GetHistory => guarded env req history
  | GetScoreboard => guarded env req scoreboard
  end.

Definition protected (route : Route) : bool :=
  match route with
  | PostPlay | GetHistory | GetScoreboard => true
  | PostRequestOtp | PostVerifyOtp => false
  end.

(** The token the gate looks at: the second piece of the header. *)
Definition presented_token (req : Request) : option string :=
  authorization req ≫= fun authHeader => JsString.split_space authHeader !! 1%nat.

(** The request carries a token that verifies against the secret and is
    unexpired on the clock of the request. *)
Definition carries_valid_token (env : Env) (req : Request) : Prop :=
  exists token uid,
    presented_token req = Some token /\ jwt_verify token (now env) = Some uid.

End Server.

(** ** Vocabulary of the properties *)

(** stone > scissor > paper > stone *)
Definition beats (a b : string) : Prop :=
  (a, b) ∈ [("stone", "scissor"); ("paper", "stone"); ("scissor", "paper")]%string.

(** Every way [/auth/verify-otp] answers other than with a token. *)
Definition verify_failures : list Response :=
  [ error_response 400 "Mobile and OTP required";
    error_response 400 "Invalid mobile or OTP format";
    error_response 400 "User not found";
    error_response 400 "OTP expired";
    error_response 400 "Invalid OTP";
    error_response 500 "Server error" ].

(** Each round is older than the one before it, with no two at the same
    instant. *)
Definition strictly_newest_first : relation Game :=
  fun a b => createdAt b < createdAt a.

(** A small instance of the [Crypto] interface, to run the routes on
    concrete requests: a code is stored as it is (the salt is not used), and
    a token is ["jwt"] followed by the key in unary (it never expires). *)
Module Demo.

Fixpoint unary (n : nat) : string :=
  match n with
  | O => EmptyString
  | S n' => String "1" (unary n')
  end.

Fixpoint read_unary (s : string) : option nat :=
  match s with
  | EmptyString => Some O
  | String c s' =>
      if Ascii.eqb c "1" then S <$> read_unary s' else None
  end.

Definition sign (uid : ObjectId) (clock : Date) : string :=
  String "j" (String "w" (String "t" (unary (N.to_nat uid)))).

Definition verify (token : string) (clock : Date) : option ObjectId :=
  match token with
  | String "j" (String "w" (String "t" rest)) => N.of_nat <$> read_unary rest
  | _ => None
  end.

Definition crypto : Crypto := {|
  bcrypt_hash := fun data salt => data;
  bcrypt_compare := String.eqb;
  jwt_sign := sign;
  jwt_verify := verify;
  bcrypt_compare_hash := fun data salt => String.eqb_refl data;
  jwt_verify_empty := fun clock => eq_refl
|}.

(** The double [0.5]. *)
Definition half : Z := 2 ^ (Double.emin - 1).

Definition phone : string := "9876543210".

(** A request at clock 1000 whose draw is [0.5]. *)
Definition env : Env := mkEnv 1000 1000 half "salt" 7%N.

(** The same a minute later, two minutes later (the instant the code of
    [env] expires) and one millisecond after that. *)
Definition env_minute : Env := mkEnv 61000 61000 half "salt" 8%N.
Definition env_expiry : Env := mkEnv 121000 121000 half "salt" 9%N.
Definition env_late : Env := mkEnv 121001 121001 half "salt" 10%N.

Definition empty_store : Store := mkStore ∅ [].

Definition otp_request : Request :=
  mkRequest None (VObj [("mobile", VStr phone)]).
Definition verify_request (code : string) : Request :=
  mkRequest None (VObj [("mobile", VStr phone); ("otp", VStr code)]).

(** A caller whose key is 7, with and without the word [Bearer]. *)
Definition bearer : string := "Bearer jwt1111111".
Definition play_request : Request :=
  mkRequest (Some bearer) (VObj [("choice", VStr "stone")]).
Definition get_request : Request := mkRequest (Some bearer) (VObj []).
Definition token_request : Request :=
  mkRequest (Some "Token jwt1111111") (VObj []).
Definition forged_request : Request :=
  mkRequest (Some "Bearer forged") (VObj [("choice", VStr "stone")]).

(** Three rounds: two of caller 7 created at the same millisecond and one
    of caller 8. *)
Definition round_a : Game := mkGame 21%N 7%N "stone" "scissor" "win" 5000.
Definition round_b : Game := mkGame 22%N 7%N "paper" "scissor" "lose" 5000.
Definition round_c : Game := mkGame 23%N 8%N "paper" "paper" "draw" 6000.
Definition played_store : Store := mkStore ∅ [round_a; round_c; round_b].

(** A pending code 4321 that expires at clock 121000. *)
Definition pending_user : User := mkUser 7%N (Some "4321") (Some 121000) 1000.
Definition pending_store : Store := mkStore {[ phone := pending_user ]} [].

End Demo.

(** ** Further vocabulary: what the routes keep and what they answer *)

(** No space occurs in [s] (a JWT is three base64url pieces joined by
    dots). *)
Fixpoint no_space (s : string) : bool :=
  match s with
  | EmptyString => true
  | String c s' => negb (Ascii.eqb c " ") && no_space s'
  end.

(** The whitespace-separated parts of a header, as the words of claim C9
    have them (not what the code computes, which is
    [JsString.split_space]): the maximal runs of characters that are not
    white space. *)
Fixpoint whitespace_parts (s : string) : list string :=
  match s with
  | EmptyString => []
  | String c s' =>
      if JsString.is_white c then whitespace_parts s'
      else match s' with
           | EmptyString => [String c EmptyString]
           | String c' _ =>
               if JsString.is_white c' then String c EmptyString :: whitespace_parts s'
               else match whitespace_parts s' with
                    | part :: rest => String c part :: rest
                    | [] => [String c EmptyString]
                    end
           end
  end.

(** A stored round whose two choices are among the three and whose result
    is what lines 148-158 give for them. *)
Definition consistent_round (g : Game) : Prop :=
  userChoice g ∈ choices /\
  computerChoice g ∈ choices /\
  result g = judge (VStr (userChoice g)) (VStr (computerChoice g)).

Definition consistent_store (st : Store) : Prop :=
  Forall consistent_round (games st).

(** The rounds of one identity, in insertion order. *)
Definition rounds_of (uid : ObjectId) (st : Store) : list Game :=
  filter (fun g => userId g = uid) (games st).

Definition total (stats : Stats) : nat := (win stats + lose stats + draw stats)%nat.

(** Every way [/auth/request-otp] answers other than with a code. *)
Definition request_failures : list Response :=
  [ error_response 400 "Mobile required";
    error_response 400 "Invalid mobile number format (10 digits required)";
    error_response 500 "Server error" ].

(** Further concrete requests and stores. *)
Module Sample.

(** The phone number of [Demo], padded as a form field may leave it. *)
Definition padded_request : Request :=
  mkRequest None (VObj [("mobile", VStr "  9876543210 ")]).

(** A code sent as a JSON number instead of a string. *)
Definition numeric_code_request : Request :=
  mkRequest None
    (VObj [("mobile", VStr Demo.phone); ("otp", VNum (S754_finite false 4321 0))]).

(** A phone number that is too short. *)
Definition short_phone_request : Request :=
  mkRequest None (VObj [("mobile", VStr "12345")]).

(** A valid token after the scheme word and two spaces, and after the
    scheme word and a TAB. *)
Definition two_spaces_request : Request :=
  mkRequest (Some "Bearer  jwt1111111") (VObj []).
Definition tab_header : string :=
  "Bearer" +:+ String (ascii_of_nat 9) "jwt1111111".
Definition tab_request : Request := mkRequest (Some tab_header) (VObj []).

Definition no_header_request : Request :=
  mkRequest None (VObj [("choice", VStr "stone")]).
Definition bare_token_request : Request :=
  mkRequest (Some "jwt1111111") (VObj [("choice", VStr "stone")]).
Definition bad_choice_request : Request :=
  mkRequest (Some Demo.bearer) (VObj [("choice", VStr "rock")]).

(** A request at clock 7000, after every round of [Demo.played_store]. *)
Definition env_after : Env := mkEnv 7000 7000 Demo.half "salt" 30%N.

Definition round_new : Game := mkGame 30%N 7%N "stone" "paper" "lose" 7000.

(** Twelve rounds of caller 7, created at clocks 1 to 12. *)
Definition twelve_rounds : list Game :=
  map (fun t => mkGame (N.of_nat t) 7%N "stone" "stone" "draw" (Z.of_nat t))
      (seq 1 12).
Definition busy_store : Store := mkStore ∅ twelve_rounds.

End Sample.

(** * Properties *)

(** ** Rounding is monotone, and what it does at the ends of the ranges *)

Module DoubleFacts.
Import Double.

Lemma rne_mono e x y : 0 <= e -> x <= y -> rne x e <= rne y e.
Proof.
  intros He Hxy. unfold rne.
  assert (HP : 0 < 2 ^ e) by (apply Z.pow_pos_nonneg; lia).
  pose proof (Z.div_mod x (2 ^ e) ltac:(lia)) as Hx.
  pose proof (Z.div_mod y (2 ^ e) ltac:(lia)) as Hy.
  pose proof (Z.mod_pos_bound x (2 ^ e) HP) as Bx.
  pose proof (Z.mod_pos_bound y (2 ^ e) HP) as By.
  set (P := 2 ^ e) in *.
  set (qx := x / P) in *. set (rx := x mod P) in *.
  set (qy := y / P) in *. set (ry := y mod P) in *.
  assert (Hq : qx < qy \/ (qx = qy /\ rx <= ry)) by nia.
  destruct (Z.compare_spec (2 * rx) P), (Z.compare_spec (2 * ry) P);
    destruct (Z.even qx) eqn:Ex, (Z.even qy) eqn:Ey; try lia;
    destruct Hq as [?|[-> ?]]; try lia; congruence.
Qed.

Lemma rne_bounds e x : 0 <= e -> x / 2 ^ e <= rne x e <= x / 2 ^ e + 1.
Proof.
  intros He. unfold rne.
  destruct (_ ?= _); [destruct (Z.even _)| |]; lia.
Qed.

Lemma rne_exact e k : 0 <= e -> rne (k * 2 ^ e) e = k.
Proof.
  intros He. unfold rne.
  assert (HP : 0 < 2 ^ e) by (apply Z.pow_pos_nonneg; lia).
  rewrite Z.mod_mul, Z.div_mul by lia.
  destruct (Z.compare_spec (2 * 0) (2 ^ e)); lia.
Qed.

Lemma round_mono lo x y : 0 <= lo -> 0 <= x <= y -> round lo x <= round lo y.
Proof.
  intros Hlo [Hx Hxy]. unfold round. cbv zeta.
  assert (Hlog : Z.log2 x <= Z.log2 y) by (apply Z.log2_le_mono; lia).
  assert (Hex : lo <= ulp_exp lo x) by (unfold ulp_exp; lia).
  assert (Hey : ulp_exp lo x <= ulp_exp lo y) by (unfold ulp_exp; lia).
  destruct (Z.eq_dec (ulp_exp lo x) (ulp_exp lo y)) as [Heq|Hne].
  - rewrite Heq. apply Z.mul_le_mono_nonneg_r.
    + apply Z.pow_nonneg; lia.
    + apply rne_mono; lia.
  - set (ex := ulp_exp lo x) in *. set (ey := ulp_exp lo y) in *.
    assert (Hy0 : 0 < y).
    { destruct (Z.eq_dec y 0) as [->|]; [|lia].
      assert (x = 0) by lia. subst x. unfold ex, ey in Hne. lia. }
    assert (Hey' : ey = Z.log2 y - (prec - 1)) by (unfold ey, ulp_exp in *; lia).
    (* x stays below the binade of y *)
    assert (Hxlt : x < 2 ^ (ex + prec)).
    { destruct (Z.eq_dec x 0) as [->|].
      - apply Z.pow_pos_nonneg; unfold prec; lia.
      - pose proof (Z.log2_spec x ltac:(lia)) as [_ Hs].
        eapply Z.lt_le_trans; [exact Hs|].
        apply Z.pow_le_mono_r; unfold ex, ulp_exp, prec; lia. }
    assert (Hyge : 2 ^ (ey + (prec - 1)) <= y).
    { pose proof (Z.log2_spec y Hy0) as [Hs _].
      replace (ey + (prec - 1)) with (Z.log2 y) by lia. exact Hs. }
    transitivity (2 ^ (prec - 1) * 2 ^ (ey - lo)).
    + transitivity (2 ^ prec * 2 ^ (ex - lo)).
      * apply Z.mul_le_mono_nonneg_r; [apply Z.pow_nonneg; lia|].
        pose proof (rne_bounds ex x ltac:(lia)) as [_ Hb].
        assert (x / 2 ^ ex < 2 ^ prec); [|lia].
        apply Z.div_lt_upper_bound; [apply Z.pow_pos_nonneg; lia|].
        rewrite <- Z.pow_add_r by (unfold prec; lia). exact Hxlt.
      * rewrite <- !Z.pow_add_r by (unfold prec; lia).
        apply Z.pow_le_mono_r; unfold prec in *; lia.
    + apply Z.mul_le_mono_nonneg_r; [apply Z.pow_nonneg; lia|].
      pose proof (rne_bounds ey y ltac:(lia)) as [Hb _].
      etransitivity; [|exact Hb].
      apply Z.div_le_lower_bound; [apply Z.pow_pos_nonneg; lia|].
      rewrite <- Z.pow_add_r by (unfold prec; lia).
      replace (ey + (prec - 1)) with (ey + (prec - 1)) in Hyge by lia.
      exact Hyge.
Qed.
(** The largest double below [1.0] is [1 - 2^-53]. *)
Lemma random_le r : is_random r -> r <= one - 2 ^ (emin - prec).
Proof.
  intros [[H0 H1] Hr].
  destruct (Z_le_gt_dec r (one - 2 ^ (emin - prec))) as [|Hgt]; [assumption|exfalso].
  assert (Hone : one = 2 ^ prec * 2 ^ (emin - prec)).
  { unfold one. rewrite <- Z.pow_add_r by (unfold emin, prec; lia).
    f_equal. }
  assert (Hhalf : 2 ^ (emin - 1) = 2 ^ (prec - 1) * 2 ^ (emin - prec)).
  { rewrite <- Z.pow_add_r by (unfold emin, prec; lia). f_equal. }
  assert (HP : 0 < 2 ^ (emin - prec)) by (apply Z.pow_pos_nonneg; unfold emin, prec; lia).
  assert (Hlog : Z.log2 r = emin - 1).
  { apply Z.log2_unique; [unfold emin; lia|].
    replace (Z.succ (emin - 1)) with emin by lia. fold one.
    rewrite Hhalf. rewrite Hone in Hgt, H1 |- *.
    change (2 ^ prec) with 9007199254740992 in *.
    change (2 ^ (prec - 1)) with 4503599627370496 in *.
    lia. }
  unfold representable, round, ulp_exp in Hr. rewrite Hlog in Hr.
  replace (Z.max 0 (emin - 1 - (prec - 1))) with (emin - prec) in Hr
    by (unfold emin, prec; lia).
  rewrite Z.sub_0_r in Hr.
  rewrite Hone in Hgt, H1.
  change (2 ^ prec) with 9007199254740992 in *.
  set (P := 2 ^ (emin - prec)) in *. clearbody P.
  set (k := rne r (emin - prec)) in *. clearbody k.
  subst r.
  assert (k < 9007199254740992) by (apply (Z.mul_lt_mono_pos_r P); lia).
  assert (9007199254740991 < k) by (apply (Z.mul_lt_mono_pos_r P); lia).
  lia.
Qed.

Lemma round_nonneg lo x : 0 <= lo -> 0 <= x -> 0 <= round lo x.
Proof.
  intros Hlo Hx. unfold round. cbv zeta.
  assert (He : lo <= ulp_exp lo x) by (unfold ulp_exp; lia).
  apply Z.mul_nonneg_nonneg; [|apply Z.pow_nonneg; lia].
  pose proof (rne_bounds (ulp_exp lo x) x ltac:(lia)) as [Hb _].
  etransitivity; [|exact Hb]. apply Z.div_pos; [lia|].
  apply Z.pow_pos_nonneg; lia.
Qed.

Lemma mul_9000_max :
  mul (one - 2 ^ (emin - prec)) (of_int 9000) = of_int 9000 - 2 ^ (emin - 39).
Proof. vm_compute. reflexivity. Qed.

Lemma add_1000_max :
  add (of_int 1000) (of_int 9000 - 2 ^ (emin - 39)) = of_int 10000 - 2 ^ (emin - 39).
Proof. vm_compute. reflexivity. Qed.

Lemma add_1000_min : add (of_int 1000) 0 = of_int 1000.
Proof. vm_compute. reflexivity. Qed.

Lemma floor_max : floor (of_int 10000 - 2 ^ (emin - 39)) = 9999.
Proof. vm_compute. reflexivity. Qed.

Lemma floor_of_int n : floor (of_int n) = n.
Proof. unfold floor, of_int. apply Z.div_mul. unfold one. apply Z.pow_nonzero; unfold emin; lia. Qed.

Lemma floor_mono x y : x <= y -> floor x <= floor y.
Proof.
  intros. unfold floor. apply Z.div_le_mono; [|assumption].
  apply Z.pow_pos_nonneg; unfold emin; lia.
Qed.

Lemma of_int_nonneg n : 0 <= n -> 0 <= of_int n.
Proof. intros. unfold of_int. apply Z.mul_nonneg_nonneg; [lia|]. apply Z.pow_nonneg; lia. Qed.

Lemma mul_mono_l x y c : 0 <= x <= y -> 0 <= c -> mul x c <= mul y c.
Proof.
  intros [Hx Hxy] Hc. unfold mul. apply round_mono; [unfold emin; lia|].
  split; [apply Z.mul_nonneg_nonneg; lia|].
  apply Z.mul_le_mono_nonneg_r; lia.
Qed.

Lemma mul_nonneg x c : 0 <= x -> 0 <= c -> 0 <= mul x c.
Proof.
  intros. apply round_nonneg; [unfold emin; lia|]. apply Z.mul_nonneg_nonneg; lia.
Qed.

Lemma add_mono_r c x y : 0 <= c -> 0 <= x <= y -> add c x <= add c y.
Proof. intros Hc [Hx Hxy]. unfold add. apply round_mono; lia. Qed.
(** [Math.floor(1000 + Math.random() * 9000)] is a four digit number, for
    every double the draw can be. *)
Lemma issue_code_range r : is_random r -> 1000 <= issue_code r <= 9999.
Proof.
  intros Hr. pose proof (random_le r Hr) as Hle. destruct Hr as [[H0 _] _].
  assert (H9 : 0 <= of_int 9000) by (apply of_int_nonneg; lia).
  assert (H1 : 0 <= of_int 1000) by (apply of_int_nonneg; lia).
  pose proof (mul_nonneg r (of_int 9000) H0 H9) as Hm0.
  pose proof (mul_mono_l r _ (of_int 9000) (conj H0 Hle) H9) as Hm.
  rewrite mul_9000_max in Hm.
  unfold issue_code. split.
  - rewrite <- (floor_of_int 1000) at 1. apply floor_mono.
    etransitivity; [apply Z.eq_le_incl; symmetry; exact add_1000_min|].
    apply add_mono_r; lia.
  - rewrite <- floor_max. apply floor_mono.
    rewrite <- add_1000_max. apply add_mono_r; lia.
Qed.

Lemma mul_3_max : mul (one - 2 ^ (emin - prec)) (of_int 3) = of_int 3 - 2 ^ (emin - 51).
Proof. vm_compute. reflexivity. Qed.

Lemma floor_3_max : floor (of_int 3 - 2 ^ (emin - 51)) = 2.
Proof. vm_compute. reflexivity. Qed.

(** [Math.floor(Math.random() * 3)] is an index of [choices]. *)
Lemma draw_index_range r : is_random r -> 0 <= draw_index r <= 2.
Proof.
  intros Hr. pose proof (random_le r Hr) as Hle. destruct Hr as [[H0 _] _].
  unfold draw_index. change (Z.of_nat (length choices)) with 3.
  assert (H3 : 0 <= of_int 3) by (apply of_int_nonneg; lia).
  split.
  - change 0 with (floor 0) at 1. apply floor_mono. apply mul_nonneg; lia.
  - rewrite <- floor_3_max. apply floor_mono. rewrite <- mul_3_max.
    apply mul_mono_l; lia.
Qed.

(** [mul] and [add] agree with the binary64 operations of [SpecFloat] where
    the ranges end ([1 - 2^-53], the largest double below 1), on a double
    that is not a binary fraction ([0.1]) and on the smallest subnormal. *)
Example agrees_with_binary64 :
  let largest := S754_finite false (2 ^ 53 - 1) (-53) in
  let tenth := S754_finite false 0x1999999999999A (-56) in
  let tiny := S754_finite false 1 (-1074) in
  let n1000 := S754_finite false 1000 0 in
  let n9000 := S754_finite false 9000 0 in
  let n3 := S754_finite false 3 0 in
  forallb (fun r =>
    bool_decide
      (to_grid (binary64_add n1000 (binary64_mul r n9000)) =
         (fun x => add (of_int 1000) (mul x (of_int 9000))) <$> to_grid r) &&
    bool_decide
      (to_grid (binary64_mul r n3) = (fun x => mul x (of_int 3)) <$> to_grid r) &&
    bool_decide
      (to_grid (binary64_mul r r) = (fun x => mul x x) <$> to_grid r))
    [largest; tenth; tiny] = true.
Proof. vm_compute. reflexivity. Qed.

Lemma is_randomb_true r : is_randomb r = true -> is_random r.
Proof.
  unfold is_randomb, is_random, representable.
  intros [[H0 H1]%andb_prop Hr]%andb_prop.
  apply Z.leb_le in H0. apply Z.ltb_lt in H1. apply Z.eqb_eq in Hr. auto.
Qed.

End DoubleFacts.

(** ** Trimming, digits and decimal printing *)

Module JsStringFacts.
Import JsString.

Lemma digit_not_white c : is_digit c = true -> is_white c = false.
Proof. destruct c as [[] [] [] [] [] [] [] []]; vm_compute; congruence. Qed.

Lemma trimStart_digits s : all_digits s = true -> trimStart s = s.
Proof.
  destruct s as [|c s]; [reflexivity|]. simpl.
  intros [Hc _]%andb_prop. by rewrite (digit_not_white c Hc).
Qed.

Lemma trimEnd_digits s : all_digits s = true -> trimEnd s = s.
Proof.
  induction s as [|c s IH]; [reflexivity|]. simpl.
  intros [Hc Hs]%andb_prop. rewrite (IH Hs), (digit_not_white c Hc).
  by destruct s.
Qed.

(** A string of digits has nothing to trim. *)
Lemma trim_digits s : all_digits s = true -> trim s = s.
Proof.
  intros Hs. unfold trim. rewrite (trimStart_digits s Hs). by apply trimEnd_digits.
Qed.

Lemma test_digits_all k s : test_digits k s = true -> all_digits s = true.
Proof. unfold test_digits. by intros [_ ?]%andb_prop. Qed.

Lemma test_digits_length k s : test_digits k s = true -> String.length s = k.
Proof. unfold test_digits. intros [Hl _]%andb_prop. by apply Nat.eqb_eq. Qed.

Lemma test_digits_trim k s : test_digits k s = true -> trim s = s.
Proof. intros Hs. apply trim_digits. by eapply test_digits_all. Qed.

Lemma four_digit_table :
  forallb (fun n => test_digits 4 (toString n)) (seqZ 1000 9000) = true.
Proof. vm_compute. reflexivity. Qed.

(** Every integer from 1000 to 9999 prints as exactly four digits. *)
Lemma toString_four_digits n :
  1000 <= n <= 9999 -> test_digits 4 (toString n) = true.
Proof.
  intros Hn. pose proof four_digit_table as Ht.
  rewrite forallb_forall in Ht. apply Ht.
  apply list_elem_of_In, elem_of_seqZ. lia.
Qed.

End JsStringFacts.

(** ** The routes *)

(** Unfold one layer of the handler monad, leaving the data alone. *)
Ltac run :=
  unfold mbind, Handler_bind, mret, Handler_ret;
  cbn -[includes judge element choices draw_index issue_code
        JsString.test_digits JsString.trim JsString.toString String.eqb
        Z.add Z.mul Z.ltb lookup insert filter merge_sort take foldl].

Ltac choice_cases H :=
  rewrite ?elem_of_cons, ?elem_of_nil in H; destruct H as [->|[->|[->|[]]]].

(** Close a branch of [/auth/verify-otp] that answers with a failure. *)
Ltac failed := left; split; [reflexivity|set_solver].

Lemma judge_spec uc cc :
  uc ∈ choices -> cc ∈ choices ->
  (judge (VStr uc) (VStr cc) = "draw"%string <-> uc = cc) /\
  (judge (VStr uc) (VStr cc) = "win"%string <-> beats uc cc) /\
  (judge (VStr uc) (VStr cc) = "lose"%string <-> uc <> cc /\ ~ beats uc cc).
Proof.
  intros Hu Hc. unfold choices in *. choice_cases Hu; choice_cases Hc;
    unfold beats; rewrite ?elem_of_cons, ?elem_of_nil; vm_compute;
    intuition congruence.
Qed.

Lemma includes_choices uc : uc ∈ choices -> includes choices (VStr uc) = true.
Proof. intros Hu. unfold choices in *. by choice_cases Hu. Qed.

(** Whatever the draw, the computer's choice is one of the three. *)
Lemma draw_in_choices r :
  Double.is_random r ->
  exists cc, cc ∈ choices /\ element choices (draw_index r) = VStr cc.
Proof.
  intros Hr. pose proof (DoubleFacts.draw_index_range r Hr) as Hi.
  assert (Hcases : draw_index r = 0 \/ draw_index r = 1 \/ draw_index r = 2) by lia.
  unfold element. destruct Hcases as [Hc|[Hc|Hc]]; rewrite Hc; cbn; eexists;
    (split; [|reflexivity]); repeat constructor.
Qed.

Lemma test_digits_truthy k s :
  (0 < k)%nat -> JsString.test_digits k (JsString.trim s) = true ->
  truthy (VStr s) = true.
Proof.
  intros Hk Hs. destruct s as [|c s]; [|reflexivity].
  apply JsStringFacts.test_digits_length in Hs. cbn in Hs. lia.
Qed.

Lemma tally_counts l : forall s,
  win (foldl tally s l) =
    (win s + length (filter (fun g => result g = "win"%string) l))%nat /\
  lose (foldl tally s l) =
    (lose s + length (filter (fun g => result g = "lose"%string) l))%nat /\
  draw (foldl tally s l) =
    (draw s + length (filter (fun g => result g = "draw"%string) l))%nat.
Proof.
  induction l as [|g l IH]; intros s; [cbn; lia|].
  cbn [foldl]. destruct (IH (tally s g)) as (Hw & Hl & Hd).
  rewrite Hw, Hl, Hd. rewrite !filter_cons. unfold tally.
  destruct (String.eqb_spec (result g) "win"%string);
    [|destruct (String.eqb_spec (result g) "lose"%string);
      [|destruct (String.eqb_spec (result g) "draw"%string)]];
    repeat case_decide; try congruence; cbn [win lose draw length]; lia.
Qed.

Lemma filter_filter_and {A} (P Q : A -> Prop) `{!forall x, Decision (P x)}
    `{!forall x, Decision (Q x)} (l : list A) :
  filter Q (filter P l) = filter (fun x => P x /\ Q x) l.
Proof.
  induction l as [|x l IH]; [reflexivity|].
  rewrite !filter_cons. destruct (decide (P x)) as [HP|HP].
  - rewrite filter_cons. destruct (decide (Q x)) as [HQ|HQ].
    + rewrite decide_True by done. by rewrite IH.
    + rewrite decide_False by tauto. exact IH.
  - rewrite decide_False by tauto. exact IH.
Qed.

#[local] Instance newest_first_total : Total newest_first.
Proof. intros a b. unfold newest_first. lia. Qed.

#[local] Instance newest_first_trans : Transitive newest_first.
Proof. intros a b c. unfold newest_first. lia. Qed.

Section Routes.
Context `{crypto : Crypto}.

(** *** The gate *)

Lemma auth_rejects env req st :
  ~ carries_valid_token env req ->
  exists msg, authMiddleware env req st = Sent (error_response 401 msg) st.
Proof.
  intros Hno. unfold authMiddleware.
  destruct (authorization req) as [authHeader|] eqn:Hauth; [|by eexists].
  destruct (String.eqb authHeader "") eqn:Hempty; [by eexists|]. run.
  destruct (JsString.split_space authHeader !! 1%nat) as [token|] eqn:Htok;
    [|by eexists].
  destruct (String.eqb token "") eqn:Hte; [by eexists|]. run.
  destruct (jwt_verify token (now env)) as [uid|] eqn:Hv; [|by eexists].
  exfalso. apply Hno. exists token, uid. split; [|assumption].
  unfold presented_token. rewrite Hauth. exact Htok.
Qed.

Lemma auth_accepts env req st authHeader token uid :
  authorization req = Some authHeader ->
  JsString.split_space authHeader !! 1%nat = Some token ->
  jwt_verify token (now env) = Some uid ->
  authMiddleware env req st = Next uid st.
Proof.
  intros Hauth Htok Hv. unfold authMiddleware. rewrite Hauth.
  assert (Hne : String.eqb token "" = false).
  { destruct (String.eqb_spec token ""%string) as [->|]; [|done].
    by rewrite jwt_verify_empty in Hv. }
  assert (Hhe : String.eqb authHeader "" = false).
  { by destruct (String.eqb_spec authHeader ""%string) as [->|]. }
  rewrite Hhe. run. rewrite Htok, Hne. run. by rewrite Hv.
Qed.

(** C3: a request to /play, /history or /scoreboard that carries no token
    verifiable against the secret and unexpired is answered with status 401,
    and the store it leaves is the store it found: no Identity and no
    GameRound is created, modified or deleted. *)
Theorem no_token_no_entry (route : Route) env req st :
  protected route = true ->
  ~ carries_valid_token env req ->
  exists msg, app route env req st = (st, error_response 401 msg).
Proof.
  intros Hp Hno. destruct (auth_rejects env req st Hno) as [msg Hmsg].
  exists msg. destruct route; try discriminate; cbn [app]; unfold guarded;
    by rewrite Hmsg.
Qed.

(** C9: the gate never looks at the scheme word. Whatever the header, when
    its second space-separated piece is a validly signed, unexpired token,
    the gate calls [next()] with the key of that token and the guarded
    handler runs; nothing requires the first piece to be [Bearer]. *)
Theorem scheme_word_is_not_checked env req st authHeader token uid :
  authorization req = Some authHeader ->
  JsString.split_space authHeader !! 1%nat = Some token ->
  jwt_verify token (now env) = Some uid ->
  authMiddleware env req st = Next uid st /\
  forall handler, guarded env req handler st = handler uid st.
Proof.
  intros Hauth Htok Hv.
  pose proof (auth_accepts env req st authHeader token uid Hauth Htok Hv) as Hnext.
  split; [exact Hnext|]. intros handler. unfold guarded. by rewrite Hnext.
Qed.

(** *** /auth/request-otp *)

Lemma request_otp_valid env req st fields mobile :
  body req = VObj fields ->
  own_property "mobile" fields = VStr mobile ->
  JsString.test_digits 10 (JsString.trim mobile) = true ->
  request_otp env req st =
    (let code := JsString.toString (issue_code (random env)) in
     let user := default (mkUser (fresh_id env) None None (created env))
                         (users st !! JsString.trim mobile) in
     (mkStore (<[JsString.trim mobile :=
                  mkUser (user_id user) (Some (bcrypt_hash code (salt env)))
                         (Some (now env + 2 * 60 * 1000)) (user_createdAt user)]>
                (users st)) (games st),
      ok_response (OtpBody "OTP sent" code))).
Proof.
  intros Hbody Hm Hd. unfold request_otp, try_catch. rewrite Hbody. run.
  rewrite Hm.
  assert (Ht : truthy (VStr mobile) = true)
    by (eapply test_digits_truthy; [|exact Hd]; lia).
  rewrite Ht. run. rewrite Hd. run.
  unfold findOne. by destruct (users st !! JsString.trim mobile).
Qed.

(** C8: whatever double in [0, 1) the draw is, the code that request-otp
    issues is an integer from 1000 to 9999, printed as exactly four digits,
    and the Identity is stored with the hash of that code and an expiry
    2 minutes (120000 ms) after the clock reading of the request. *)
Theorem issued_code_has_four_digits env req st fields mobile :
  body req = VObj fields ->
  own_property "mobile" fields = VStr mobile ->
  JsString.test_digits 10 (JsString.trim mobile) = true ->
  Double.is_random (random env) ->
  exists code user,
    1000 <= code <= 9999 /\
    JsString.test_digits 4 (JsString.toString code) = true /\
    request_otp env req st =
      (mkStore (<[JsString.trim mobile := user]> (users st)) (games st),
       ok_response (OtpBody "OTP sent" (JsString.toString code))) /\
    otpHash user = Some (bcrypt_hash (JsString.toString code) (salt env)) /\
    otpExpiry user = Some (now env + 2 * 60 * 1000).
Proof.
  intros Hbody Hm Hd Hr.
  pose proof (DoubleFacts.issue_code_range _ Hr) as Hrange.
  eexists (issue_code (random env)), _.
  split; [exact Hrange|].
  split; [by apply JsStringFacts.toString_four_digits|].
  split; [by apply (request_otp_valid env req st fields mobile)|].
  done.
Qed.

(** C10: a [mobile] field that is present and truthy but not a string (a
    JSON number, [true], an array, an object) makes request-otp answer 500
    "Server error", not the 400 of a format failure; the store is left as
    it was. *)
Theorem non_string_mobile_is_server_error env req st fields mobile :
  body req = VObj fields ->
  own_property "mobile" fields = mobile ->
  truthy mobile = true ->
  is_string mobile = false ->
  request_otp env req st = (st, error_response 500 "Server error").
Proof.
  intros Hbody Hm Ht Hs. unfold request_otp, try_catch. rewrite Hbody. run.
  rewrite Hm, Ht. run. by destruct mobile.
Qed.

(** *** /auth/verify-otp *)

Lemma otp_expired_spec user clock :
  otp_expired user clock = true <->
  otpExpiry user = None \/
  exists expiry, otpExpiry user = Some expiry /\ expiry < clock.
Proof.
  unfold otp_expired. destruct (otpExpiry user) as [e|].
  - rewrite Z.ltb_lt. split; [intros; right; by exists e|].
    intros [?|(e' & [= <-] & ?)]; done.
  - split; [by left|done].
Qed.

(** What verify-otp answers once the body is well-formed and the Identity
    exists. *)
Lemma verify_otp_found env req st fields mobile otp user :
  body req = VObj fields ->
  own_property "mobile" fields = VStr mobile ->
  own_property "otp" fields = VStr otp ->
  JsString.test_digits 10 (JsString.trim mobile) = true ->
  JsString.test_digits 4 (JsString.trim otp) = true ->
  users st !! JsString.trim mobile = Some user ->
  verify_otp env req st =
    if otp_expired user (now env) then (st, error_response 400 "OTP expired")
    else match otpHash user with
         | None => (st, error_response 500 "Server error")
         | Some hash =>
             if bcrypt_compare (JsString.trim otp) hash
             then (mkStore (<[JsString.trim mobile := clear_otp user]> (users st))
                           (games st),
                   ok_response (TokenBody (jwt_sign (user_id user) (now env))))
             else (st, error_response 400 "Invalid OTP")
         end.
Proof.
  intros Hbody Hm Ho Hdm Hdo Hu. unfold verify_otp, try_catch. rewrite Hbody. run.
  rewrite Hm, Ho.
  assert (Htm : truthy (VStr mobile) = true)
    by (eapply test_digits_truthy; [|exact Hdm]; lia).
  assert (Hto : truthy (VStr otp) = true)
    by (eapply test_digits_truthy; [|exact Hdo]; lia).
  rewrite Htm, Hto. run. rewrite Hdm, Hdo. run.
  unfold findOne. rewrite Hu. run.
  destruct (otp_expired user (now env)); [reflexivity|]. run.
  unfold compare_otp. destruct (otpHash user) as [hash|]; [|reflexivity]. run.
  by destruct (bcrypt_compare (JsString.trim otp) hash).
Qed.

(** C2 (amended): for a valid 10-digit phone number, requesting a code and
    verifying with the returned code no later than its expiry succeeds and
    yields a token; the same phone number and code presented again are
    refused with "OTP expired" (the expiry was cleared, and it is tested
    before the hash), whatever the clock. *)
Theorem otp_verifies_once env1 env2 env3 req1 st fields1 phone :
  JsString.test_digits 10 phone = true ->
  Double.is_random (random env1) ->
  now env2 <= now env1 + 2 * 60 * 1000 ->
  body req1 = VObj fields1 ->
  own_property "mobile" fields1 = VStr phone ->
  exists code st1 st2 token,
    request_otp env1 req1 st = (st1, ok_response (OtpBody "OTP sent" code)) /\
    forall req2 fields2,
      body req2 = VObj fields2 ->
      own_property "mobile" fields2 = VStr phone ->
      own_property "otp" fields2 = VStr code ->
      verify_otp env2 req2 st1 = (st2, ok_response (TokenBody token)) /\
      verify_otp env3 req2 st2 = (st2, error_response 400 "OTP expired").
Proof.
  intros Hphone Hr Hclock Hbody1 Hm1.
  pose proof (JsStringFacts.test_digits_trim _ _ Hphone) as Htrim.
  pose proof (JsStringFacts.toString_four_digits _
                (DoubleFacts.issue_code_range _ Hr)) as Hcode.
  pose proof (JsStringFacts.test_digits_trim _ _ Hcode) as Hctrim.
  set (code := JsString.toString (issue_code (random env1))) in *.
  pose proof (request_otp_valid env1 req1 st fields1 phone Hbody1 Hm1) as Hreq.
  rewrite Htrim in Hreq. specialize (Hreq Hphone). cbv zeta in Hreq.
  fold code in Hreq.
  set (user0 := default _ (users st !! phone)) in Hreq.
  set (user1 := mkUser (user_id user0) (Some (bcrypt_hash code (salt env1)))
                       (Some (now env1 + 2 * 60 * 1000)) (user_createdAt user0))
    in Hreq.
  set (st1 := mkStore (<[phone := user1]> (users st)) (games st)) in Hreq.
  set (st2 := mkStore (<[phone := clear_otp user1]> (users st1)) (games st1)).
  exists code, st1, st2, (jwt_sign (user_id user1) (now env2)).
  split; [exact Hreq|].
  intros req2 fields2 Hbody2 Hm2 Ho2. split.
  - rewrite (verify_otp_found env2 req2 st1 fields2 phone code user1);
      rewrite ?Htrim, ?Hctrim; try done.
    + unfold otp_expired. cbn [otpExpiry user1 otpHash].
      destruct (Z.ltb_spec (now env1 + 2 * 60 * 1000) (now env2)); [lia|].
      by rewrite bcrypt_compare_hash.
    + apply lookup_insert_eq.
  - rewrite (verify_otp_found env3 req2 st2 fields2 phone code (clear_otp user1));
      rewrite ?Htrim, ?Hctrim; try done.
    apply lookup_insert_eq.
Qed.

(** C4 (amended): for an Identity whose [otpExpiry] is unset, or lies
    strictly before the clock of the request, a well-formed verify-otp
    request is refused with "OTP expired" and the store is left as it was,
    whether or not the presented code matches the stored hash. *)
Theorem expired_code_is_refused env req st fields mobile otp user :
  body req = VObj fields ->
  own_property "mobile" fields = VStr mobile ->
  own_property "otp" fields = VStr otp ->
  JsString.test_digits 10 (JsString.trim mobile) = true ->
  JsString.test_digits 4 (JsString.trim otp) = true ->
  users st !! JsString.trim mobile = Some user ->
  (otpExpiry user = None \/
   exists expiry, otpExpiry user = Some expiry /\ expiry < now env) ->
  verify_otp env req st = (st, error_response 400 "OTP expired").
Proof.
  intros Hbody Hm Ho Hdm Hdo Hu Hexp.
  rewrite (verify_otp_found env req st fields mobile otp user) by done.
  apply otp_expired_spec in Hexp. by rewrite Hexp.
Qed.

(** C5: every verify-otp request either fails, with one of the failure
    responses (validation, no Identity, expired, mismatch, server error) and
    the store exactly as it was, or succeeds; and then the Identity stored
    under the phone number of the request, which had a hash and an expiry,
    is replaced by one with the same key and creation time whose [otpHash]
    and [otpExpiry] are both cleared, nothing else in the store changes,
    and the response carries the token signed for that Identity's key. *)
Theorem verify_otp_changes_only_on_success env req st :
  (fst (verify_otp env req st) = st /\
   snd (verify_otp env req st) ∈ verify_failures) \/
  (exists fields mobile user cleared,
     body req = VObj fields /\
     own_property "mobile" fields = VStr mobile /\
     users st !! JsString.trim mobile = Some user /\
     otpHash user <> None /\ otpExpiry user <> None /\
     otpHash cleared = None /\ otpExpiry cleared = None /\
     user_id cleared = user_id user /\
     user_createdAt cleared = user_createdAt user /\
     fst (verify_otp env req st) =
       mkStore (<[JsString.trim mobile := cleared]> (users st)) (games st) /\
     snd (verify_otp env req st) =
       ok_response (TokenBody (jwt_sign (user_id user) (now env)))).
Proof.
  unfold verify_otp, try_catch, verify_failures.
  destruct (body req) as [| |b|x|s|items|fields]; run; try failed.
  destruct (truthy (own_property "mobile" fields)) eqn:Htm; run; [|failed].
  destruct (truthy (own_property "otp" fields)) eqn:Hto; run; [|failed].
  destruct (own_property "mobile" fields) as [| |b|x|mobile|items|fs] eqn:Hm; run;
    try failed.
  destruct (own_property "otp" fields) as [| |b|x|otp|items|fs]; run;
    try failed.
  destruct (JsString.test_digits 10 (JsString.trim mobile)); run; [|failed].
  destruct (JsString.test_digits 4 (JsString.trim otp)); run; [|failed].
  unfold findOne.
  destruct (users st !! JsString.trim mobile) as [user|] eqn:Hu; run; [|failed].
  destruct (otp_expired user (now env)) eqn:He; run; [failed|].
  unfold compare_otp. destruct (otpHash user) as [hash|] eqn:Hh; run; [|failed].
  destruct (bcrypt_compare (JsString.trim otp) hash); run; [|failed].
  right. exists fields, mobile, user, (clear_otp user).
  repeat split; try done.
  - by rewrite Hh.
  - unfold otp_expired in He. destruct (otpExpiry user); [done|discriminate].
Qed.

(** *** /play, /history, /scoreboard *)

(** C1: for all choices of the user and of the computer among stone, paper
    and scissor, the outcome is draw exactly when the two are equal, win
    exactly when the user's choice beats the computer's (stone > scissor >
    paper > stone) and lose exactly otherwise; and an authenticated /play
    request with that choice of the user, whatever double in [0, 1) the draw
    is, gives the computer one of the three choices, appends one round
    holding the caller's key, the two choices and their outcome, and
    answers with the same three values. *)
Theorem play_adjudicates (uc cc : string) :
  uc ∈ choices -> cc ∈ choices ->
  (judge (VStr uc) (VStr cc) = "draw"%string <-> uc = cc) /\
  (judge (VStr uc) (VStr cc) = "win"%string <-> beats uc cc) /\
  (judge (VStr uc) (VStr cc) = "lose"%string <-> uc <> cc /\ ~ beats uc cc) /\
  forall env req uid st fields,
    authMiddleware env req st = Next uid st ->
    body req = VObj fields ->
    own_property "choice" fields = VStr uc ->
    Double.is_random (random env) ->
    exists drawn,
      drawn ∈ choices /\
      element choices (draw_index (random env)) = VStr drawn /\
      app PostPlay env req st =
        (mkStore (users st)
           (games st ++ [mkGame (fresh_id env) uid uc drawn
                           (judge (VStr uc) (VStr drawn)) (created env)]),
         ok_response
           (PlayBody (VStr uc) (VStr drawn) (judge (VStr uc) (VStr drawn)))).
Proof.
  intros Hu Hc. destruct (judge_spec uc cc Hu Hc) as (Hd & Hw & Hl).
  repeat split; try tauto.
  intros env req uid st fields Hauth Hbody Hchoice Hr.
  destruct (draw_in_choices _ Hr) as (drawn & Hin & Hdraw).
  exists drawn. split; [exact Hin|]. split; [exact Hdraw|].
  cbn [app]. unfold guarded. rewrite Hauth.
  unfold play, try_catch. rewrite Hbody. run. rewrite Hchoice.
  rewrite (includes_choices uc Hu). run. rewrite Hdraw. reflexivity.
Qed.

(** C6 (amended): for an authenticated caller and any game-round store,
    /history answers with at most 10 rounds, each a stored round of the
    caller, in order of creation time, newest first: no round is followed by
    a newer one (rounds created at the same instant may follow each other),
    and the store is left as it was. *)
Theorem history_newest_first env req st uid :
  authMiddleware env req st = Next uid st ->
  exists l,
    app GetHistory env req st = (st, ok_response (HistoryBody l)) /\
    (length l <= 10)%nat /\
    (forall g, g ∈ l -> userId g = uid /\ g ∈ games st) /\
    StronglySorted newest_first l.
Proof.
  intros Hauth. eexists. split; [|split; [|split]].
  - cbn [app]. unfold guarded. rewrite Hauth. reflexivity.
  - rewrite length_take. lia.
  - intros g Hg. apply elem_of_take in Hg as (i & Hg & _).
    apply list_elem_of_lookup_2 in Hg.
    rewrite merge_sort_Permutation in Hg.
    apply list_elem_of_filter in Hg. tauto.
  - eapply (StronglySorted_app_1_l _ _ (drop 10 _)). rewrite take_drop.
    apply StronglySorted_merge_sort; apply _.
Qed.

(** C7: for an authenticated caller, the win, lose and draw fields of the
    /scoreboard response are the numbers of stored rounds that belong to the
    caller and whose result is win, lose and draw: all of them, however
    many, and none of another identity. *)
Theorem scoreboard_counts env req st uid :
  authMiddleware env req st = Next uid st ->
  exists stats,
    app GetScoreboard env req st = (st, ok_response (StatsBody stats)) /\
    win stats = length (filter (fun g => userId g = uid /\ result g = "win"%string)
                               (games st)) /\
    lose stats = length (filter (fun g => userId g = uid /\ result g = "lose"%string)
                                (games st)) /\
    draw stats = length (filter (fun g => userId g = uid /\ result g = "draw"%string)
                                (games st)).
Proof.
  intros Hauth. eexists. split.
  - cbn [app]. unfold guarded. rewrite Hauth. reflexivity.
  - destruct (tally_counts (filter (fun g => userId g = uid) (games st))
                (mkStats 0 0 0)) as (Hw & Hl & Hd).
    rewrite Hw, Hl, Hd, !filter_filter_and. cbn. done.
Qed.

End Routes.

(** ** The routes on concrete requests *)

(** The draws 0, 0.5 and 0.75 give the computer stone, paper and scissor. *)
Example draws_reach_every_choice :
  element choices (draw_index 0) = VStr "stone" /\
  element choices (draw_index Demo.half) = VStr "paper" /\
  element choices (draw_index (3 * 2 ^ (Double.emin - 2))) = VStr "scissor".
Proof. vm_compute. auto. Qed.

Lemma play_adjudicates_witness :
  exists drawn,
    drawn ∈ choices /\
    element choices (draw_index (random Demo.env)) = VStr drawn /\
    app (crypto := Demo.crypto) PostPlay Demo.env Demo.play_request Demo.empty_store =
      (mkStore ∅ [mkGame 7%N 7%N "stone" drawn
                    (judge (VStr "stone") (VStr drawn)) 1000],
       ok_response
         (PlayBody (VStr "stone") (VStr drawn) (judge (VStr "stone") (VStr drawn)))).
Proof.
  destruct (play_adjudicates (crypto := Demo.crypto) "stone" "paper")
    as (_ & _ & _ & Hplay).
  - repeat constructor.
  - repeat constructor.
  - apply (Hplay Demo.env Demo.play_request 7%N Demo.empty_store
             [("choice", VStr "stone")]%string).
    + vm_compute. reflexivity.
    + reflexivity.
    + reflexivity.
    + apply DoubleFacts.is_randomb_true. vm_compute. reflexivity.
Defined.

Example play_stone_against_paper :
  app (crypto := Demo.crypto) PostPlay Demo.env Demo.play_request Demo.empty_store =
    (mkStore ∅ [mkGame 7%N 7%N "stone" "paper" "lose" 1000],
     ok_response (PlayBody (VStr "stone") (VStr "paper") "lose")).
Proof. vm_compute. reflexivity. Qed.

(** C2, as stated, fails: after a successful verification the same phone
    number and code are refused with "OTP expired", not "Invalid OTP". *)
Lemma second_verify_is_expired_not_mismatch :
  let first :=
    request_otp (crypto := Demo.crypto) Demo.env Demo.otp_request Demo.empty_store in
  let second :=
    verify_otp (crypto := Demo.crypto) Demo.env_minute (Demo.verify_request "5500")
      (fst first) in
  let third :=
    verify_otp (crypto := Demo.crypto) Demo.env_minute (Demo.verify_request "5500")
      (fst second) in
  snd first = ok_response (OtpBody "OTP sent" "5500") /\
  snd second = ok_response (TokenBody "jwt1111111") /\
  snd third = error_response 400 "OTP expired" /\
  snd third <> error_response 400 "Invalid OTP".
Proof. vm_compute. repeat split; congruence. Qed.

Lemma otp_verifies_once_witness :
  exists code st1 st2 token,
    request_otp (crypto := Demo.crypto) Demo.env Demo.otp_request Demo.empty_store =
      (st1, ok_response (OtpBody "OTP sent" code)) /\
    forall req2 fields2,
      body req2 = VObj fields2 ->
      own_property "mobile" fields2 = VStr Demo.phone ->
      own_property "otp" fields2 = VStr code ->
      verify_otp (crypto := Demo.crypto) Demo.env_minute req2 st1 =
        (st2, ok_response (TokenBody token)) /\
      verify_otp (crypto := Demo.crypto) Demo.env_late req2 st2 =
        (st2, error_response 400 "OTP expired").
Proof.
  apply (otp_verifies_once (crypto := Demo.crypto) Demo.env Demo.env_minute
           Demo.env_late Demo.otp_request Demo.empty_store
           [("mobile", VStr Demo.phone)]%string Demo.phone).
  - vm_compute. reflexivity.
  - apply DoubleFacts.is_randomb_true. vm_compute. reflexivity.
  - simpl. lia.
  - reflexivity.
  - reflexivity.
Defined.

Lemma no_token_no_entry_witness :
  exists msg,
    app (crypto := Demo.crypto) PostPlay Demo.env Demo.forged_request Demo.played_store =
      (Demo.played_store, error_response 401 msg).
Proof.
  apply (no_token_no_entry (crypto := Demo.crypto) PostPlay Demo.env
           Demo.forged_request Demo.played_store).
  - reflexivity.
  - intros (token & uid & Htoken & Hverify).
    vm_compute in Htoken. injection Htoken as <-.
    vm_compute in Hverify. discriminate.
Defined.

(** C4, as stated, fails at the expiry instant itself: the clock equals the
    stored [otpExpiry], the code matches, and the answer is a token. *)
Lemma code_accepted_at_expiry_instant :
  let answer :=
    verify_otp (crypto := Demo.crypto) Demo.env_expiry (Demo.verify_request "4321")
      Demo.pending_store in
  otpExpiry Demo.pending_user = Some (now Demo.env_expiry) /\
  answer = (mkStore {[ Demo.phone := clear_otp Demo.pending_user ]} [],
            ok_response (TokenBody "jwt1111111")) /\
  snd answer <> error_response 400 "OTP expired".
Proof. vm_compute. repeat split; congruence. Qed.

Lemma expired_code_is_refused_witness :
  verify_otp (crypto := Demo.crypto) Demo.env_late (Demo.verify_request "4321")
    Demo.pending_store =
    (Demo.pending_store, error_response 400 "OTP expired").
Proof.
  apply (expired_code_is_refused (crypto := Demo.crypto) Demo.env_late
           (Demo.verify_request "4321") Demo.pending_store
           [("mobile", VStr Demo.phone); ("otp", VStr "4321")]%string
           Demo.phone "4321" Demo.pending_user).
  - reflexivity.
  - reflexivity.
  - reflexivity.
  - vm_compute. reflexivity.
  - vm_compute. reflexivity.
  - vm_compute. reflexivity.
  - right. exists 121000. split; [reflexivity|simpl; lia].
Defined.

(** C6, as stated, fails when two rounds of the caller were created at the
    same millisecond: /history returns both, and neither is strictly newer
    than the other. *)
Lemma history_with_a_tie :
  authMiddleware (crypto := Demo.crypto) Demo.env Demo.get_request Demo.played_store =
    Next 7%N Demo.played_store /\
  app (crypto := Demo.crypto) GetHistory Demo.env Demo.get_request Demo.played_store =
    (Demo.played_store, ok_response (HistoryBody [Demo.round_a; Demo.round_b])) /\
  ~ Sorted strictly_newest_first [Demo.round_a; Demo.round_b].
Proof.
  split; [vm_compute; reflexivity|]. split; [vm_compute; reflexivity|].
  intros Hsorted. apply Sorted_inv in Hsorted as [_ Hhd].
  apply HdRel_inv in Hhd. unfold strictly_newest_first in Hhd. simpl in Hhd. lia.
Qed.

Lemma history_newest_first_witness :
  exists l,
    app (crypto := Demo.crypto) GetHistory Demo.env Demo.get_request Demo.played_store =
      (Demo.played_store, ok_response (HistoryBody l)) /\
    (length l <= 10)%nat /\
    (forall g, g ∈ l -> userId g = 7%N /\ g ∈ games Demo.played_store) /\
    StronglySorted newest_first l.
Proof.
  apply (history_newest_first (crypto := Demo.crypto) Demo.env Demo.get_request
           Demo.played_store 7%N).
  vm_compute. reflexivity.
Defined.

Lemma scoreboard_counts_witness :
  exists stats,
    app (crypto := Demo.crypto) GetScoreboard Demo.env Demo.get_request
      Demo.played_store = (Demo.played_store, ok_response (StatsBody stats)) /\
    win stats = length (filter (fun g => userId g = 7%N /\ result g = "win"%string)
                               (games Demo.played_store)) /\
    lose stats = length (filter (fun g => userId g = 7%N /\ result g = "lose"%string)
                                (games Demo.played_store)) /\
    draw stats = length (filter (fun g => userId g = 7%N /\ result g = "draw"%string)
                                (games Demo.played_store)).
Proof.
  apply (scoreboard_counts (crypto := Demo.crypto) Demo.env Demo.get_request
           Demo.played_store 7%N).
  vm_compute. reflexivity.
Defined.

Example scoreboard_of_caller_7 :
  snd (app (crypto := Demo.crypto) GetScoreboard Demo.env Demo.get_request
         Demo.played_store) = ok_response (StatsBody (mkStats 1 1 0)).
Proof. vm_compute. reflexivity. Qed.

Lemma issued_code_has_four_digits_witness :
  exists code user,
    1000 <= code <= 9999 /\
    JsString.test_digits 4 (JsString.toString code) = true /\
    request_otp (crypto := Demo.crypto) Demo.env Demo.otp_request Demo.empty_store =
      (mkStore (<[JsString.trim Demo.phone := user]> (users Demo.empty_store))
               (games Demo.empty_store),
       ok_response (OtpBody "OTP sent" (JsString.toString code))) /\
    otpHash user = Some (bcrypt_hash (Crypto := Demo.crypto)
                           (JsString.toString code) (salt Demo.env)) /\
    otpExpiry user = Some (now Demo.env + 2 * 60 * 1000).
Proof.
  apply (issued_code_has_four_digits (crypto := Demo.crypto) Demo.env
           Demo.otp_request Demo.empty_store
           [("mobile", VStr Demo.phone)]%string Demo.phone).
  - reflexivity.
  - reflexivity.
  - vm_compute. reflexivity.
  - apply DoubleFacts.is_randomb_true. vm_compute. reflexivity.
Defined.

Lemma scheme_word_is_not_checked_witness :
  authMiddleware (crypto := Demo.crypto) Demo.env Demo.token_request Demo.played_store =
    Next 7%N Demo.played_store /\
  forall handler,
    guarded (crypto := Demo.crypto) Demo.env Demo.token_request handler
      Demo.played_store = handler 7%N Demo.played_store.
Proof.
  apply (scheme_word_is_not_checked (crypto := Demo.crypto) Demo.env
           Demo.token_request Demo.played_store "Token jwt1111111" "jwt1111111" 7%N).
  - reflexivity.
  - vm_compute. reflexivity.
  - vm_compute. reflexivity.
Defined.

Lemma non_string_mobile_is_server_error_witness :
  let req := mkRequest None
               (VObj [("mobile", VNum (S754_finite false 9876543210 0))]) in
  request_otp (crypto := Demo.crypto) Demo.env req Demo.empty_store =
    (Demo.empty_store, error_response 500 "Server error").
Proof.
  intros req.
  apply (non_string_mobile_is_server_error (crypto := Demo.crypto) Demo.env req
           Demo.empty_store
           [("mobile", VNum (S754_finite false 9876543210 0))]%string
           (VNum (S754_finite false 9876543210 0))).
  - reflexivity.
  - reflexivity.
  - reflexivity.
  - reflexivity.
Defined.

(** * Further properties of the routes *)

Lemma split_space_no_space s :
  no_space s = true -> JsString.split_space s = [s].
Proof.
  induction s as [|c s IH]; [reflexivity|]. cbn.
  intros [Hc Hs]%andb_prop. apply negb_true_iff in Hc. rewrite Hc.
  by rewrite (IH Hs).
Qed.

Lemma split_space_app a b :
  no_space a = true ->
  JsString.split_space (a +:+ " " +:+ b) = a :: JsString.split_space b.
Proof.
  induction a as [|c a IH]; [reflexivity|].
  intros [Hc Ha]%andb_prop. apply negb_true_iff in Hc.
  change (String c a +:+ " " +:+ b) with (String c (a +:+ " " +:+ b)).
  cbn [JsString.split_space]. rewrite Hc. by rewrite (IH Ha).
Qed.

Lemma judge_three a b :
  judge a b = "draw"%string \/ judge a b = "win"%string \/ judge a b = "lose"%string.
Proof. unfold judge. destruct (strict_eq a b); [auto|]. destruct (_ || _); auto. Qed.

Lemma tally_total s g :
  (result g = "win" \/ result g = "lose" \/ result g = "draw")%string ->
  total (tally s g) = S (total s) /\
  (win s <= win (tally s g))%nat /\ (lose s <= lose (tally s g))%nat /\
  (draw s <= draw (tally s g))%nat.
Proof.
  unfold tally, total. intros [-> | [-> | ->]]; cbn; lia.
Qed.

Lemma tally_total_le s g : (total (tally s g) <= S (total s))%nat.
Proof.
  unfold tally, total.
  destruct (String.eqb _ _); [cbn; lia|].
  destruct (String.eqb _ _); [cbn; lia|].
  destruct (String.eqb _ _); cbn; lia.
Qed.

Lemma foldl_tally_total l : forall s,
  (total (foldl tally s l) <= total s + length l)%nat /\
  (Forall consistent_round l -> total (foldl tally s l) = (total s + length l)%nat).
Proof.
  induction l as [|g l IH]; intros s; [cbn; split; [lia|intros; lia]|].
  cbn [foldl length]. destruct (IH (tally s g)) as [Hle Heq].
  pose proof (tally_total_le s g). split; [lia|].
  intros [Hg Hl]%Forall_cons. rewrite (Heq Hl).
  destruct Hg as (_ & _ & Hres).
  destruct (tally_total s g) as [-> _]; [|lia].
  rewrite Hres. destruct (judge_three (VStr (userChoice g)) (VStr (computerChoice g)))
    as [-> | [-> | ->]]; auto.
Qed.

(** Every outcome of the [/play] handler. *)
Lemma play_cases env req uid st :
  (fst (play env req uid st) = st /\ status (snd (play env req uid st)) <> 200) \/
  exists g,
    fst (play env req uid st) = mkStore (users st) (games st ++ [g]) /\
    userId g = uid /\ createdAt g = created env /\ consistent_round g.
Proof.
  unfold play, try_catch.
  destruct (body req) as [| |b|x|s|items|fields]; run; try (by left).
  destruct (own_property "choice" fields) as [| |b|x|uc|items|fs]; run;
    try (by left).
  destruct (includes choices (VStr uc)) eqn:Hin; run; [|by left].
  unfold includes in Hin. unfold element.
  destruct (choices !! Z.to_nat (draw_index (random env))) as [cc|] eqn:Hcc; run;
    [|by left].
  right. eexists. split; [reflexivity|]. repeat split.
  - cbn. apply existsb_exists in Hin as (c & Hc & Heq).
    apply String.eqb_eq in Heq. subst c. by apply list_elem_of_In.
  - cbn. by eapply list_elem_of_lookup_2.
Qed.

Section MoreRoutes.
Context `{crypto : Crypto}.

(** The gate either answers 401 or calls [next()]; it never touches the
    store and never throws. *)
Lemma authMiddleware_cases env req st :
  (exists msg, authMiddleware env req st = Sent (error_response 401 msg) st) \/
  (exists uid, authMiddleware env req st = Next uid st).
Proof.
  unfold authMiddleware.
  destruct (authorization req) as [authHeader|]; [|left; by eexists].
  destruct (String.eqb authHeader ""); run; [left; by eexists|].
  destruct (JsString.split_space authHeader !! 1%nat) as [token|];
    [|left; by eexists].
  destruct (String.eqb token ""); run; [left; by eexists|].
  destruct (jwt_verify token (now env)) as [uid|];
    [right; by eexists|left; by eexists].
Qed.

Lemma guarded_cases env req handler st :
  (exists msg, guarded env req handler st = (st, error_response 401 msg)) \/
  (exists uid, authMiddleware env req st = Next uid st /\
               guarded env req handler st = handler uid st).
Proof.
  unfold guarded.
  destruct (authMiddleware_cases env req st) as [[msg Hm]|[uid Hu]].
  - left. exists msg. by rewrite Hm.
  - right. exists uid. by rewrite Hu.
Qed.

(** Every outcome of [/auth/request-otp]. *)
Lemma request_otp_cases env req st :
  (request_otp env req st = (st, error_response 500 "Server error") /\
   ~ exists fields m, body req = VObj fields /\
       own_property "mobile" fields = VStr m) \/
  (exists fields, body req = VObj fields /\
     truthy (own_property "mobile" fields) = false /\
     request_otp env req st = (st, error_response 400 "Mobile required")) \/
  (body req <> VUndefined /\ body req <> VNull /\
     (forall fields, body req <> VObj fields) /\
     request_otp env req st = (st, error_response 400 "Mobile required")) \/
  (exists fields m, body req = VObj fields /\
     own_property "mobile" fields = VStr m /\
     JsString.test_digits 10 (JsString.trim m) = false /\
     request_otp env req st =
       (st, error_response 400 "Invalid mobile number format (10 digits required)")) \/
  (exists fields m, body req = VObj fields /\
     own_property "mobile" fields = VStr m /\
     JsString.test_digits 10 (JsString.trim m) = true).
Proof.
  unfold request_otp, try_catch.
  destruct (body req) as [| |b|x|s|items|fields] eqn:Hbody; run.
  1,2: left; split; [reflexivity|]; by intros (? & ? & ? & ?).
  1-4: right; right; left; repeat split; congruence.
  destruct (truthy (own_property "mobile" fields)) eqn:Ht; run;
    [|right; left; by exists fields].
  destruct (own_property "mobile" fields) as [| |b|x|m|items|fs] eqn:Hm; run;
    try discriminate.
  1-2,4-5: left; split; [reflexivity|]; intros (? & ? & [= <-] & ?); congruence.
  destruct (JsString.test_digits 10 (JsString.trim m)) eqn:Hd; run.
  - do 4 right. by exists fields, m.
  - do 3 right. left. by exists fields, m.
Qed.

(** X1: request-otp answers 200 exactly for an object body whose [mobile] is
    a string that trims to ten digits. *)
Theorem request_otp_accepts_iff env req st :
  status (snd (request_otp env req st)) = 200 <->
  exists fields m,
    body req = VObj fields /\
    own_property "mobile" fields = VStr m /\
    JsString.test_digits 10 (JsString.trim m) = true.
Proof.
  split.
  - intros Hs.
    destruct (request_otp_cases env req st)
      as [[H _]|[(f & _ & _ & H)|[(_ & _ & _ & H)|[(f & m & _ & _ & _ & H)|H]]]];
      try exact H; rewrite H in Hs; discriminate.
  - intros (fields & m & Hb & Hm & Hd).
    by rewrite (request_otp_valid env req st fields m Hb Hm Hd).
Qed.

(** X2: a request-otp that does not answer 200 answers with one of the three
    failures and leaves the store as it was. *)
Theorem request_otp_failure_frame env req st :
  status (snd (request_otp env req st)) <> 200 ->
  fst (request_otp env req st) = st /\
  snd (request_otp env req st) ∈ request_failures.
Proof.
  intros Hs. unfold request_failures.
  destruct (request_otp_cases env req st)
    as [[H _]|[(f & _ & _ & H)|[(_ & _ & _ & H)|[(f & m & _ & _ & _ & H)|H]]]].
  1-4: rewrite H; split; [reflexivity|set_solver].
  destruct H as (fields & m & Hb & Hm & Hd). exfalso. apply Hs.
  by rewrite (request_otp_valid env req st fields m Hb Hm Hd).
Qed.

(** What request-otp does to the store, whatever it answers. *)
Lemma request_otp_store env req st :
  fst (request_otp env req st) = st \/
  exists phone hash,
    fst (request_otp env req st) =
      mkStore (<[phone :=
                 let user := default (mkUser (fresh_id env) None None (created env))
                                     (users st !! phone) in
                 mkUser (user_id user) (Some hash) (Some (now env + 2 * 60 * 1000))
                        (user_createdAt user)]> (users st)) (games st).
Proof.
  destruct (request_otp_cases env req st)
    as [[H _]|[(f & _ & _ & H)|[(_ & _ & _ & H)|[(f & m & _ & _ & _ & H)|H]]]].
  1-4: left; by rewrite H.
  destruct H as (fields & m & Hb & Hm & Hd). right.
  rewrite (request_otp_valid env req st fields m Hb Hm Hd). cbn.
  by eexists _, _.
Qed.

(** Every outcome of [/auth/verify-otp], as far as the store goes. *)
Lemma verify_otp_store env req st :
  fst (verify_otp env req st) = st \/
  exists phone user,
    users st !! phone = Some user /\
    fst (verify_otp env req st) =
      mkStore (<[phone := clear_otp user]> (users st)) (games st).
Proof.
  unfold verify_otp, try_catch.
  destruct (body req) as [| |b|x|s|items|fields]; run; try (by left).
  destruct (truthy (own_property "mobile" fields)); run; [|by left].
  destruct (truthy (own_property "otp" fields)); run; [|by left].
  destruct (own_property "mobile" fields) as [| |b|x|mobile|items|fs]; run;
    try (by left).
  destruct (own_property "otp" fields) as [| |b|x|otp|items|fs]; run;
    try (by left).
  destruct (JsString.test_digits 10 (JsString.trim mobile)); run; [|by left].
  destruct (JsString.test_digits 4 (JsString.trim otp)); run; [|by left].
  unfold findOne.
  destruct (users st !! JsString.trim mobile) as [user|] eqn:Hu; run; [|by left].
  destruct (otp_expired user (now env)); run; [by left|].
  unfold compare_otp. destruct (otpHash user) as [hash|]; run; [|by left].
  destruct (bcrypt_compare (JsString.trim otp) hash); run; [|by left].
  right. by exists (JsString.trim mobile), user.
Qed.

(** What any route does to the store. *)
Lemma app_store route env req st :
  fst (app route env req st) = st \/
  (exists phone hash,
    fst (app route env req st) =
      mkStore (<[phone :=
                 let user := default (mkUser (fresh_id env) None None (created env))
                                     (users st !! phone) in
                 mkUser (user_id user) (Some hash) (Some (now env + 2 * 60 * 1000))
                        (user_createdAt user)]> (users st)) (games st)) \/
  (exists phone user,
    users st !! phone = Some user /\
    fst (app route env req st) =
      mkStore (<[phone := clear_otp user]> (users st)) (games st)) \/
  (exists g,
    fst (app route env req st) = mkStore (users st) (games st ++ [g]) /\
    createdAt g = created env /\ consistent_round g).
Proof.
  destruct route; cbn [app].
  - destruct (request_otp_store env req st) as [?|?]; auto.
  - destruct (verify_otp_store env req st) as [?|?]; auto.
  - destruct (guarded_cases env req (play env req) st) as [[msg ->]|(uid & _ & ->)];
      [by left|].
    destruct (play_cases env req uid st) as [[? _]|(g & ? & ? & ? & ?)]; [by left|].
    do 3 right. by exists g.
  - destruct (guarded_cases env req history st) as [[msg ->]|(uid & _ & ->)]; by left.
  - destruct (guarded_cases env req scoreboard st) as [[msg ->]|(uid & _ & ->)]; by left.
Qed.

(** X3: no route ever deletes an Identity or changes its key or its creation
    time. *)
Theorem identities_persist route env req st phone user :
  users st !! phone = Some user ->
  exists user',
    users (fst (app route env req st)) !! phone = Some user' /\
    user_id user' = user_id user /\
    user_createdAt user' = user_createdAt user.
Proof.
  intros Hu.
  destruct (app_store route env req st)
    as [->|[(p & h & ->)|[(p & u & Hp & ->)|(g & -> & _)]]]; cbn [users].
  - by exists user.
  - destruct (decide (p = phone)) as [->|Hne].
    + rewrite lookup_insert_eq, Hu. cbn. by eexists.
    + rewrite lookup_insert_ne by done. by exists user.
  - destruct (decide (p = phone)) as [->|Hne].
    + rewrite lookup_insert_eq. rewrite Hu in Hp. injection Hp as <-. by eexists.
    + rewrite lookup_insert_ne by done. by exists user.
  - by exists user.
Qed.

(** X4: the rounds are an append-only log: every route leaves the stored
    rounds in place and adds at most one after them. *)
Theorem rounds_append_only route env req st :
  exists added,
    games (fst (app route env req st)) = games st ++ added /\
    (length added <= 1)%nat.
Proof.
  destruct (app_store route env req st)
    as [->|[(p & h & ->)|[(p & u & Hp & ->)|(g & -> & _)]]]; cbn [games].
  1-3: exists []; rewrite app_nil_r; split; [done|cbn; lia].
  exists [g]. split; [done|cbn; lia].
Qed.

(** X5: every route keeps the rounds consistent with the beats relation. *)
Theorem routes_keep_rounds_consistent route env req st :
  consistent_store st ->
  consistent_store (fst (app route env req st)).
Proof.
  unfold consistent_store. intros Hst.
  destruct (app_store route env req st)
    as [->|[(p & h & ->)|[(p & u & Hp & ->)|(g & -> & _ & Hg)]]]; cbn [games];
    try done.
  apply Forall_app. split; [done|]. by constructor.
Qed.

(** A token is only ever issued for a well-formed request whose code matches
    the unexpired pending hash of that phone number. *)
Lemma verify_otp_needs_pending env req st :
  status (snd (verify_otp env req st)) = 200 ->
  exists fields m o user hash,
    body req = VObj fields /\
    own_property "mobile" fields = VStr m /\
    own_property "otp" fields = VStr o /\
    JsString.test_digits 10 (JsString.trim m) = true /\
    JsString.test_digits 4 (JsString.trim o) = true /\
    users st !! JsString.trim m = Some user /\
    otp_expired user (now env) = false /\
    otpHash user = Some hash /\
    bcrypt_compare (JsString.trim o) hash = true.
Proof.
  unfold verify_otp, try_catch.
  destruct (body req) as [| |b|x|s|items|fields]; run; try discriminate.
  destruct (truthy (own_property "mobile" fields)); run; [|discriminate].
  destruct (truthy (own_property "otp" fields)); run; [|discriminate].
  destruct (own_property "mobile" fields) as [| |b|x|mobile|items|fs] eqn:Hm; run;
    try discriminate.
  destruct (own_property "otp" fields) as [| |b|x|otp|items|fs] eqn:Ho; run;
    try discriminate.
  destruct (JsString.test_digits 10 (JsString.trim mobile)) eqn:Hdm; run;
    [|discriminate].
  destruct (JsString.test_digits 4 (JsString.trim otp)) eqn:Hdo; run;
    [|discriminate].
  unfold findOne.
  destruct (users st !! JsString.trim mobile) as [user|] eqn:Hu; run;
    [|discriminate].
  destruct (otp_expired user (now env)) eqn:He; run; [discriminate|].
  unfold compare_otp. destruct (otpHash user) as [hash|] eqn:Hh; run;
    [|discriminate].
  destruct (bcrypt_compare (JsString.trim otp) hash) eqn:Hc; run; [|discriminate].
  intros _. by exists fields, mobile, otp, user, hash.
Qed.

Lemma otp_not_expired_spec user clock :
  otp_expired user clock = false <->
  exists expiry, otpExpiry user = Some expiry /\ clock <= expiry.
Proof.
  unfold otp_expired. destruct (otpExpiry user) as [e|].
  - rewrite Z.ltb_ge. split; [intros; by exists e|].
    by intros (e' & [= <-] & ?).
  - split; [done|]. by intros (? & ? & ?).
Qed.

(** X6: verify-otp answers 200 exactly when the body is an object whose
    [mobile] and [otp] are strings that trim to ten and four digits, an
    Identity exists for that number, its expiry is set and not before the
    clock, and the code matches its stored hash. *)
Theorem verify_otp_accepts_iff env req st :
  status (snd (verify_otp env req st)) = 200 <->
  exists fields m o user expiry hash,
    body req = VObj fields /\
    own_property "mobile" fields = VStr m /\
    own_property "otp" fields = VStr o /\
    JsString.test_digits 10 (JsString.trim m) = true /\
    JsString.test_digits 4 (JsString.trim o) = true /\
    users st !! JsString.trim m = Some user /\
    otpExpiry user = Some expiry /\ now env <= expiry /\
    otpHash user = Some hash /\
    bcrypt_compare (JsString.trim o) hash = true.
Proof.
  split.
  - intros Hs.
    destruct (verify_otp_needs_pending env req st Hs)
      as (fields & m & o & user & hash & Hb & Hm & Ho & Hdm & Hdo & Hu & He & Hh & Hc).
    apply otp_not_expired_spec in He as (expiry & He & Hle).
    by exists fields, m, o, user, expiry, hash.
  - intros (fields & m & o & user & expiry & hash
            & Hb & Hm & Ho & Hdm & Hdo & Hu & He & Hle & Hh & Hc).
    rewrite (verify_otp_found env req st fields m o user) by done.
    assert (Hne : otp_expired user (now env) = false)
      by (apply otp_not_expired_spec; by exists expiry).
    by rewrite Hne, Hh, Hc.
Qed.

(** X7: a wrong code is refused with "Invalid OTP" and does not spend the
    pending code: the right code still verifies afterwards. *)
Theorem wrong_code_does_not_spend_the_code
    env env' req req' st fields fields' phone wrong right user expiry hash :
  JsString.test_digits 10 phone = true ->
  JsString.test_digits 4 wrong = true ->
  JsString.test_digits 4 right = true ->
  body req = VObj fields ->
  own_property "mobile" fields = VStr phone ->
  own_property "otp" fields = VStr wrong ->
  body req' = VObj fields' ->
  own_property "mobile" fields' = VStr phone ->
  own_property "otp" fields' = VStr right ->
  users st !! phone = Some user ->
  otpExpiry user = Some expiry ->
  now env <= expiry -> now env' <= expiry ->
  otpHash user = Some hash ->
  bcrypt_compare wrong hash = false ->
  bcrypt_compare right hash = true ->
  verify_otp env req st = (st, error_response 400 "Invalid OTP") /\
  verify_otp env' req' (fst (verify_otp env req st)) =
    (mkStore (<[phone := clear_otp user]> (users st)) (games st),
     ok_response (TokenBody (jwt_sign (user_id user) (now env')))).
Proof.
  intros Hdp Hdw Hdr Hb Hm Ho Hb' Hm' Ho' Hu He Hle Hle' Hh Hcw Hcr.
  pose proof (JsStringFacts.test_digits_trim _ _ Hdp) as Htp.
  pose proof (JsStringFacts.test_digits_trim _ _ Hdw) as Htw.
  pose proof (JsStringFacts.test_digits_trim _ _ Hdr) as Htr.
  assert (Hne : otp_expired user (now env) = false)
    by (apply otp_not_expired_spec; by exists expiry).
  assert (Hne' : otp_expired user (now env') = false)
    by (apply otp_not_expired_spec; by exists expiry).
  assert (H1 : verify_otp env req st = (st, error_response 400 "Invalid OTP")).
  { rewrite (verify_otp_found env req st fields phone wrong user);
      rewrite ?Htp, ?Htw; try done. by rewrite Hne, Hh, Hcw. }
  split; [exact H1|]. rewrite H1. cbn [fst].
  rewrite (verify_otp_found env' req' st fields' phone right user);
    rewrite ?Htp, ?Htr; try done. by rewrite Hne', Hh, Hcr.
Qed.

(** X8: once a code has been verified, no request for that phone number
    verifies again, whatever code it presents and whenever, until
    request-otp runs again. *)
Theorem verified_code_is_spent env env' req req' st fields fields' m m' :
  status (snd (verify_otp env req st)) = 200 ->
  body req = VObj fields ->
  own_property "mobile" fields = VStr m ->
  body req' = VObj fields' ->
  own_property "mobile" fields' = VStr m' ->
  JsString.trim m' = JsString.trim m ->
  status (snd (verify_otp env' req' (fst (verify_otp env req st)))) <> 200.
Proof.
  intros Hs Hb Hm Hb' Hm' Htrim.
  destruct (verify_otp_needs_pending env req st Hs)
    as (fields0 & m0 & o & user & hash & Hb0 & Hm0 & Ho & Hdm & Hdo & Hu & He & Hh & Hc).
  rewrite Hb in Hb0. injection Hb0 as <-. rewrite Hm in Hm0. injection Hm0 as <-.
  rewrite (verify_otp_found env req st fields m o user) by done.
  rewrite He, Hh, Hc. cbn [fst].
  intros Hs'.
  destruct (verify_otp_needs_pending env' req' _ Hs')
    as (fields1 & m1 & o1 & user1 & hash1 & Hb1 & Hm1 & _ & _ & _ & Hu1 & He1 & _).
  rewrite Hb' in Hb1. injection Hb1 as <-. rewrite Hm' in Hm1. injection Hm1 as <-.
  rewrite Htrim in Hu1. cbn [users] in Hu1. rewrite lookup_insert_eq in Hu1.
  injection Hu1 as <-. discriminate He1.
Qed.

(** X9: a well-formed verify-otp for a phone number that never requested a
    code is refused with "User not found"; nothing is created. *)
Theorem verify_otp_unknown_phone env req st fields m o :
  body req = VObj fields ->
  own_property "mobile" fields = VStr m ->
  own_property "otp" fields = VStr o ->
  JsString.test_digits 10 (JsString.trim m) = true ->
  JsString.test_digits 4 (JsString.trim o) = true ->
  users st !! JsString.trim m = None ->
  verify_otp env req st = (st, error_response 400 "User not found").
Proof.
  intros Hb Hm Ho Hdm Hdo Hu. unfold verify_otp, try_catch. rewrite Hb. run.
  rewrite Hm, Ho.
  assert (Htm : truthy (VStr m) = true)
    by (eapply test_digits_truthy; [|exact Hdm]; lia).
  assert (Hto : truthy (VStr o) = true)
    by (eapply test_digits_truthy; [|exact Hdo]; lia).
  rewrite Htm, Hto. run. rewrite Hdm, Hdo. run.
  unfold findOne. by rewrite Hu.
Qed.

(** X10: when [mobile] and [otp] are both truthy but one of them is not a
    string (a code sent as the JSON number 4321), verify-otp answers 500
    "Server error", not a 400, and the store is left as it was. *)
Theorem non_string_code_is_server_error env req st fields :
  body req = VObj fields ->
  truthy (own_property "mobile" fields) = true ->
  truthy (own_property "otp" fields) = true ->
  is_string (own_property "mobile" fields) && is_string (own_property "otp" fields)
    = false ->
  verify_otp env req st = (st, error_response 500 "Server error").
Proof.
  intros Hb Htm Hto Hs. unfold verify_otp, try_catch. rewrite Hb. run.
  rewrite Htm, Hto. run.
  destruct (own_property "mobile" fields); try reflexivity.
  destruct (own_property "otp" fields); try reflexivity. discriminate.
Qed.

(** X11: a code is refused once its two minutes are over: after request-otp
    at clock [t], any well-formed verify-otp for that phone at a clock later
    than [t + 120000] answers "OTP expired", whatever code it presents, and
    changes nothing. *)
Theorem issued_code_expires env1 env2 req1 st fields1 phone :
  JsString.test_digits 10 phone = true ->
  body req1 = VObj fields1 ->
  own_property "mobile" fields1 = VStr phone ->
  now env1 + 2 * 60 * 1000 < now env2 ->
  forall req2 fields2 o,
    body req2 = VObj fields2 ->
    own_property "mobile" fields2 = VStr phone ->
    own_property "otp" fields2 = VStr o ->
    JsString.test_digits 4 (JsString.trim o) = true ->
    verify_otp env2 req2 (fst (request_otp env1 req1 st)) =
      (fst (request_otp env1 req1 st), error_response 400 "OTP expired").
Proof.
  intros Hdp Hb1 Hm1 Hlate req2 fields2 o Hb2 Hm2 Ho2 Hdo.
  pose proof (JsStringFacts.test_digits_trim _ _ Hdp) as Htp.
  rewrite (request_otp_valid env1 req1 st fields1 phone Hb1 Hm1)
    by (by rewrite Htp).
  rewrite Htp. cbn [fst].
  erewrite (verify_otp_found env2 req2 _ fields2 phone o); rewrite ?Htp; try done.
  2: { cbn [users]. apply lookup_insert_eq. }
  unfold otp_expired. cbn [otpExpiry].
  by destruct (Z.ltb_spec (now env1 + 2 * 60 * 1000) (now env2)); [|lia].
Qed.

(** X12: request-otp replaces whatever code was pending: afterwards a code
    that does not match the hash of the newly issued one is refused with
    "Invalid OTP" while the new code is unexpired, even if it was the code
    pending before. *)
Theorem request_otp_replaces_pending_code
    env env' req req' st fields fields' phone old :
  JsString.test_digits 10 phone = true ->
  JsString.test_digits 4 old = true ->
  body req = VObj fields ->
  own_property "mobile" fields = VStr phone ->
  body req' = VObj fields' ->
  own_property "mobile" fields' = VStr phone ->
  own_property "otp" fields' = VStr old ->
  now env' <= now env + 2 * 60 * 1000 ->
  bcrypt_compare old
    (bcrypt_hash (JsString.toString (issue_code (random env))) (salt env)) = false ->
  verify_otp env' req' (fst (request_otp env req st)) =
    (fst (request_otp env req st), error_response 400 "Invalid OTP").
Proof.
  intros Hdp Hdo Hb Hm Hb' Hm' Ho' Hle Hc.
  pose proof (JsStringFacts.test_digits_trim _ _ Hdp) as Htp.
  pose proof (JsStringFacts.test_digits_trim _ _ Hdo) as Hto.
  rewrite (request_otp_valid env req st fields phone Hb Hm) by (by rewrite Htp).
  rewrite Htp. cbn [fst].
  erewrite (verify_otp_found env' req' _ fields' phone old);
    rewrite ?Htp, ?Hto; try done.
  2: { cbn [users]. apply lookup_insert_eq. }
  unfold otp_expired. cbn [otpExpiry otpHash].
  destruct (Z.ltb_spec (now env + 2 * 60 * 1000) (now env')); [lia|].
  by rewrite Hc.
Qed.

(** X13: the two messages of the gate. "No token provided" is the answer
    exactly when the header is missing or has no second piece or an empty
    one; "Invalid or expired token" exactly when there is a non-empty second
    piece that does not verify. *)
Theorem gate_messages env req st :
  (authMiddleware env req st = Sent (error_response 401 "No token provided") st <->
   presented_token req = None \/ presented_token req = Some ""%string) /\
  (authMiddleware env req st =
     Sent (error_response 401 "Invalid or expired token") st <->
   exists token,
     presented_token req = Some token /\ token <> ""%string /\
     jwt_verify token (now env) = None).
Proof.
  unfold authMiddleware, presented_token.
  destruct (authorization req) as [authHeader|]; cbn [mbind option_bind];
    [|split; [split; auto|split; [discriminate|by intros (? & ? & _)]]].
  destruct (String.eqb_spec authHeader ""%string) as [->|Hh]; run.
  { split; [split; auto|split; [discriminate|by intros (? & ? & _)]]. }
  destruct (JsString.split_space authHeader !! 1%nat) as [token|]; run;
    [|split; [split; auto|split; [discriminate|by intros (? & ? & _)]]].
  destruct (String.eqb_spec token ""%string) as [->|Ht]; run.
  { split; [split; auto|split; [discriminate|]].
    intros (? & [= <-] & ? & _). done. }
  destruct (jwt_verify token (now env)) as [uid|] eqn:Hv.
  - split; [split; [discriminate|intros [|[= ->]]; done]|].
    split; [discriminate|]. intros (? & [= <-] & _ & ?). congruence.
  - split; [split; [discriminate|intros [|[= ->]]; done]|].
    split; [|done]. intros _. by exists token.
Qed.

(** X14: for a header made of a scheme word, one space and a token, neither
    containing a space, the gate lets the request through as [uid] exactly
    when the token verifies as [uid]. *)
Theorem scheme_and_token_header env req st scheme token :
  no_space scheme = true ->
  no_space token = true ->
  authorization req = Some (scheme +:+ " " +:+ token) ->
  forall uid,
    authMiddleware env req st = Next uid st <->
    jwt_verify token (now env) = Some uid.
Proof.
  intros Hs Ht Hauth uid.
  assert (Hpiece : JsString.split_space (scheme +:+ " " +:+ token) !! 1%nat
                   = Some token).
  { by rewrite (split_space_app _ _ Hs), (split_space_no_space _ Ht). }
  split.
  - unfold authMiddleware. rewrite Hauth.
    destruct (String.eqb (scheme +:+ " " +:+ token) ""); run; [discriminate|].
    rewrite Hpiece. destruct (String.eqb token ""); run; [discriminate|].
    destruct (jwt_verify token (now env)); [congruence|discriminate].
  - intros Hv. by apply (auth_accepts env req st _ token uid Hauth Hpiece).
Qed.

(** X15: /history and /scoreboard never change the store, whether the
    request passes the gate or is answered 401. *)
Theorem get_routes_read_only route env req st :
  route = GetHistory \/ route = GetScoreboard ->
  fst (app route env req st) = st.
Proof.
  intros [-> | ->]; cbn [app].
  - by destruct (guarded_cases env req history st) as [[msg ->]|(uid & _ & ->)].
  - by destruct (guarded_cases env req scoreboard st) as [[msg ->]|(uid & _ & ->)].
Qed.

(** X16: a /play that passed the gate validates the choice before anything
    else: it answers 200 only when [choice] is one of the three strings,
    and for any other [choice] (missing, not a string, another word) it
    answers 400 "Invalid choice" and stores nothing, whatever the draw. *)
Theorem play_validates_choice env req st uid fields :
  authMiddleware env req st = Next uid st ->
  body req = VObj fields ->
  (status (snd (app PostPlay env req st)) = 200 ->
   exists uc, own_property "choice" fields = VStr uc /\ uc ∈ choices) /\
  ((~ exists uc, own_property "choice" fields = VStr uc /\ uc ∈ choices) ->
   app PostPlay env req st = (st, error_response 400 "Invalid choice")).
Proof.
  intros Hauth Hb. cbn [app]. unfold guarded. rewrite Hauth.
  unfold play, try_catch. rewrite Hb. run.
  destruct (includes choices (own_property "choice" fields)) eqn:Hinc; run.
  - assert (Hvalid : exists uc, own_property "choice" fields = VStr uc /\ uc ∈ choices).
    { destruct (own_property "choice" fields) as [| |b|x|uc|items|fs];
        try discriminate.
      exists uc. split; [done|]. unfold includes in Hinc.
      apply existsb_exists in Hinc as (c & Hc & Heq).
      apply String.eqb_eq in Heq. subst c. by apply list_elem_of_In. }
    split; [by intros _|]. intros Hno. by destruct Hno.
  - split; [discriminate|done].
Qed.

Lemma rounds_of_other route env req st uid' :
  (forall uid, authMiddleware env req st = Next uid st -> uid <> uid') ->
  rounds_of uid' (fst (app route env req st)) = rounds_of uid' st.
Proof.
  intros Hother. unfold rounds_of. destruct route; cbn [app].
  - by destruct (request_otp_store env req st) as [->|(p & h & ->)].
  - by destruct (verify_otp_store env req st) as [->|(p & u & _ & ->)].
  - destruct (guarded_cases env req (play env req) st) as [[msg ->]|(uid & Hu & ->)];
      [done|].
    destruct (play_cases env req uid st) as [[-> _]|(g & -> & Hg & _)]; [done|].
    cbn [games]. rewrite filter_app, filter_cons, filter_nil.
    rewrite decide_False; [by rewrite app_nil_r|].
    rewrite Hg. by apply Hother.
  - by destruct (guarded_cases env req history st) as [[msg ->]|(uid & _ & ->)].
  - by destruct (guarded_cases env req scoreboard st) as [[msg ->]|(uid & _ & ->)].
Qed.

(** X17: whatever a request does, the history and the scoreboard of every
    identity other than its caller stay what they were. *)
Theorem other_identities_unaffected route env req st uid' :
  (forall uid, authMiddleware env req st = Next uid st -> uid <> uid') ->
  snd (history uid' (fst (app route env req st))) = snd (history uid' st) /\
  snd (scoreboard uid' (fst (app route env req st))) = snd (scoreboard uid' st).
Proof.
  intros Hother. pose proof (rounds_of_other route env req st uid' Hother) as Hr.
  unfold rounds_of in Hr. unfold history, scoreboard, try_catch. run.
  unfold recent_games, find_games. by rewrite Hr.
Qed.

(** X18: a /play that answers 200 raises the caller's scoreboard by exactly
    one round: no counter goes down and their sum goes up by one. *)
Theorem play_adds_one_to_the_scoreboard env req st uid :
  authMiddleware env req st = Next uid st ->
  status (snd (app PostPlay env req st)) = 200 ->
  exists before after,
    snd (scoreboard uid st) = ok_response (StatsBody before) /\
    snd (scoreboard uid (fst (app PostPlay env req st))) =
      ok_response (StatsBody after) /\
    total after = S (total before) /\
    (win before <= win after)%nat /\ (lose before <= lose after)%nat /\
    (draw before <= draw after)%nat.
Proof.
  intros Hauth. cbn [app]. unfold guarded. rewrite Hauth. intros Hs.
  destruct (play_cases env req uid st) as [[_ Hne]|(g & Hst & Hg & _ & Hc)];
    [done|].
  rewrite Hst. unfold scoreboard, try_catch. run. unfold find_games. run.
  eexists _, _. split; [reflexivity|]. split; [reflexivity|].
  rewrite filter_app, filter_cons, filter_nil, decide_True by done.
  rewrite foldl_app. cbn [foldl]. apply tally_total.
  destruct Hc as (_ & _ & ->).
  destruct (judge_three (VStr (userChoice g)) (VStr (computerChoice g)))
    as [-> | [-> | ->]]; auto.
Qed.

(** X19: a round played later than all the caller's stored rounds is the
    first record of the caller's next history. *)
Theorem new_round_heads_the_history env req st uid :
  authMiddleware env req st = Next uid st ->
  status (snd (app PostPlay env req st)) = 200 ->
  (forall g, g ∈ rounds_of uid st -> createdAt g < created env) ->
  exists g rest,
    games (fst (app PostPlay env req st)) = games st ++ [g] /\
    snd (history uid (fst (app PostPlay env req st))) =
      ok_response (HistoryBody (g :: rest)).
Proof.
  intros Hauth. cbn [app]. unfold guarded. rewrite Hauth. intros Hs Hnew.
  destruct (play_cases env req uid st) as [[_ Hne]|(g & Hst & Hg & Hc & _)];
    [done|].
  rewrite Hst. cbn [games]. unfold history, try_catch. run. unfold recent_games. run.
  rewrite filter_app, filter_cons, filter_nil, decide_True by done.
  fold (rounds_of uid st).
  pose proof (StronglySorted_merge_sort newest_first (rounds_of uid st ++ [g]))
    as Hsorted.
  pose proof (merge_sort_Permutation newest_first (rounds_of uid st ++ [g])) as Hperm.
  destruct (merge_sort newest_first (rounds_of uid st ++ [g])) as [|h t] eqn:HL.
  { apply Permutation_nil_l in Hperm. by destruct (rounds_of uid st). }
  assert (Hh : h ∈ rounds_of uid st ++ [g]) by (rewrite <- Hperm; left).
  assert (Hgin : g ∈ h :: t).
  { rewrite Hperm. apply elem_of_app. right. left. }
  assert (h = g) as ->.
  { apply elem_of_app in Hh as [Hold|Hlast];
      [|by apply list_elem_of_singleton in Hlast].
    apply elem_of_cons in Hgin as [->|Hgt]; [done|].
    apply StronglySorted_inv in Hsorted as [_ Hall].
    rewrite Forall_forall in Hall. specialize (Hall g Hgt).
    specialize (Hnew h Hold). unfold newest_first in Hall. lia. }
  exists g, (take 9 t). done.
Qed.

(** X20: /history returns the caller's most recent rounds: as many as there
    are, up to 10, and every round of the caller it leaves out is no newer
    than any round it returns. *)
Theorem history_is_the_most_recent uid st :
  exists l,
    snd (history uid st) = ok_response (HistoryBody l) /\
    length l = Nat.min 10 (length (rounds_of uid st)) /\
    forall g h, g ∈ l -> h ∈ rounds_of uid st -> h ∉ l ->
                createdAt h <= createdAt g.
Proof.
  eexists. split; [reflexivity|]. fold (rounds_of uid st).
  set (L := merge_sort newest_first (rounds_of uid st)).
  pose proof (StronglySorted_merge_sort newest_first (rounds_of uid st)) as Hsorted.
  pose proof (merge_sort_Permutation newest_first (rounds_of uid st)) as Hperm.
  fold L in Hsorted, Hperm. split.
  - by rewrite length_take, Hperm.
  - intros g h Hg Hh Hout. rewrite <- Hperm, <- (take_drop 10 L) in Hh.
    apply elem_of_app in Hh as [?|Hh]; [done|].
    rewrite <- (take_drop 10 L) in Hsorted.
    exact (StronglySorted_app_1_elem_of _ _ _ _ _ Hsorted Hg Hh).
Qed.

(** X21: the three counters of /scoreboard never add up to more than the
    number of the caller's rounds, and add up to exactly that number when
    the stored rounds are consistent. *)
Theorem scoreboard_total uid st :
  exists stats,
    snd (scoreboard uid st) = ok_response (StatsBody stats) /\
    (total stats <= length (rounds_of uid st))%nat /\
    (consistent_store st -> total stats = length (rounds_of uid st)).
Proof.
  eexists. split; [reflexivity|]. fold (rounds_of uid st).
  destruct (foldl_tally_total (rounds_of uid st) (mkStats 0 0 0)) as [Hle Heq].
  split; [exact Hle|]. intros Hst. apply Heq.
  unfold rounds_of. unfold consistent_store in Hst.
  rewrite Forall_forall in Hst |- *. intros g Hg.
  apply list_elem_of_filter in Hg as [_ Hg]. by apply Hst.
Qed.

(** X22: request-otp trims the phone number: a number padded with white space
    addresses the same Identity and is answered exactly as the bare
    number. *)
Theorem padded_phone_is_the_same_identity env req req' st fields fields' m :
  body req = VObj fields ->
  own_property "mobile" fields = VStr m ->
  body req' = VObj fields' ->
  own_property "mobile" fields' = VStr (JsString.trim m) ->
  JsString.test_digits 10 (JsString.trim m) = true ->
  request_otp env req st = request_otp env req' st.
Proof.
  intros Hb Hm Hb' Hm' Hd.
  pose proof (JsStringFacts.test_digits_trim _ _ Hd) as Ht.
  rewrite (request_otp_valid env req st fields m Hb Hm Hd).
  rewrite (request_otp_valid env req' st fields' _ Hb' Hm') by (by rewrite Ht).
  by rewrite Ht.
Qed.

(** X23: the token that verify-otp returns is the one signed, at the clock
    of the request, for the [_id] of the Identity stored under the trimmed
    phone number of that request; and a request that carries it as
    [Bearer <token>], while jwt.verify accepts it for that key, is passed
    by the gate with that [_id]. *)
Theorem issued_token_opens_the_gate env env' req req' st fields mobile token :
  body req = VObj fields ->
  own_property "mobile" fields = VStr mobile ->
  snd (verify_otp env req st) = ok_response (TokenBody token) ->
  no_space token = true ->
  authorization req' = Some ("Bearer " +:+ token) ->
  exists user,
    users st !! JsString.trim mobile = Some user /\
    token = jwt_sign (user_id user) (now env) /\
    (jwt_verify token (now env') = Some (user_id user) ->
     forall st', authMiddleware env' req' st' = Next (user_id user) st').
Proof.
  intros Hbody Hmobile Hresp Hns Hauth.
  assert (Hs : status (snd (verify_otp env req st)) = 200) by (by rewrite Hresp).
  destruct (verify_otp_needs_pending env req st Hs)
    as (fields0 & m & o & user & hash & Hb & Hm & Ho & Hdm & Hdo & Hu & He & Hh & Hc).
  rewrite Hbody in Hb. injection Hb as <-.
  rewrite Hmobile in Hm. injection Hm as <-.
  rewrite (verify_otp_found env req st fields mobile o user) in Hresp by done.
  rewrite He, Hh, Hc in Hresp. injection Hresp as <-.
  exists user. split; [exact Hu|]. split; [reflexivity|].
  intros Hv st'.
  assert (Hpiece :
    JsString.split_space ("Bearer " +:+ jwt_sign (user_id user) (now env)) !! 1%nat
    = Some (jwt_sign (user_id user) (now env))).
  { change ("Bearer " +:+ jwt_sign (user_id user) (now env))
      with ("Bearer" +:+ " " +:+ jwt_sign (user_id user) (now env)).
    by rewrite (split_space_app "Bearer" _ eq_refl), (split_space_no_space _ Hns). }
  exact (auth_accepts env' req' st' _ _ _ Hauth Hpiece Hv).
Qed.

End MoreRoutes.

(** ** The further properties on concrete requests *)

Lemma request_otp_failure_frame_witness :
  fst (request_otp (crypto := Demo.crypto) Demo.env Sample.short_phone_request
         Demo.pending_store) = Demo.pending_store /\
  snd (request_otp (crypto := Demo.crypto) Demo.env Sample.short_phone_request
         Demo.pending_store) ∈ request_failures.
Proof.
  apply (request_otp_failure_frame (crypto := Demo.crypto) Demo.env
           Sample.short_phone_request Demo.pending_store).
  vm_compute. discriminate.
Defined.

Lemma identities_persist_witness :
  exists user',
    users (fst (app (crypto := Demo.crypto) PostRequestOtp Demo.env Demo.otp_request
                  Demo.pending_store)) !! Demo.phone = Some user' /\
    user_id user' = user_id Demo.pending_user /\
    user_createdAt user' = user_createdAt Demo.pending_user.
Proof.
  apply (identities_persist (crypto := Demo.crypto) PostRequestOtp Demo.env
           Demo.otp_request Demo.pending_store Demo.phone Demo.pending_user).
  vm_compute. reflexivity.
Defined.

Lemma routes_keep_rounds_consistent_witness :
  consistent_store
    (fst (app (crypto := Demo.crypto) PostPlay Demo.env Demo.play_request
            Demo.played_store)).
Proof.
  apply (routes_keep_rounds_consistent (crypto := Demo.crypto) PostPlay Demo.env
           Demo.play_request Demo.played_store).
  unfold consistent_store, consistent_round. simpl. repeat constructor.
Defined.

Lemma wrong_code_does_not_spend_the_code_witness :
  verify_otp (crypto := Demo.crypto) Demo.env (Demo.verify_request "0000")
    Demo.pending_store = (Demo.pending_store, error_response 400 "Invalid OTP") /\
  verify_otp (crypto := Demo.crypto) Demo.env_minute (Demo.verify_request "4321")
    (fst (verify_otp (crypto := Demo.crypto) Demo.env (Demo.verify_request "0000")
            Demo.pending_store)) =
    (mkStore (<[Demo.phone := clear_otp Demo.pending_user]> (users Demo.pending_store))
             (games Demo.pending_store),
     ok_response
       (TokenBody (jwt_sign (Crypto := Demo.crypto) (user_id Demo.pending_user)
                     (now Demo.env_minute)))).
Proof.
  apply (wrong_code_does_not_spend_the_code (crypto := Demo.crypto)
           Demo.env Demo.env_minute
           (Demo.verify_request "0000") (Demo.verify_request "4321")
           Demo.pending_store
           [("mobile", VStr Demo.phone); ("otp", VStr "0000")]%string
           [("mobile", VStr Demo.phone); ("otp", VStr "4321")]%string
           Demo.phone "0000" "4321" Demo.pending_user 121000 "4321").
  all: try reflexivity.
  all: simpl; lia.
Defined.

Lemma verified_code_is_spent_witness :
  status (snd (verify_otp (crypto := Demo.crypto) Demo.env_minute
                 (Demo.verify_request "4321")
                 (fst (verify_otp (crypto := Demo.crypto) Demo.env
                         (Demo.verify_request "4321") Demo.pending_store)))) <> 200.
Proof.
  apply (verified_code_is_spent (crypto := Demo.crypto) Demo.env Demo.env_minute
           (Demo.verify_request "4321") (Demo.verify_request "4321")
           Demo.pending_store
           [("mobile", VStr Demo.phone); ("otp", VStr "4321")]%string
           [("mobile", VStr Demo.phone); ("otp", VStr "4321")]%string
           Demo.phone Demo.phone).
  all: reflexivity.
Defined.

Lemma verify_otp_unknown_phone_witness :
  verify_otp (crypto := Demo.crypto) Demo.env (Demo.verify_request "4321")
    Demo.empty_store = (Demo.empty_store, error_response 400 "User not found").
Proof.
  apply (verify_otp_unknown_phone (crypto := Demo.crypto) Demo.env
           (Demo.verify_request "4321") Demo.empty_store
           [("mobile", VStr Demo.phone); ("otp", VStr "4321")]%string
           Demo.phone "4321").
  all: reflexivity.
Defined.

Lemma non_string_code_is_server_error_witness :
  verify_otp (crypto := Demo.crypto) Demo.env Sample.numeric_code_request
    Demo.pending_store = (Demo.pending_store, error_response 500 "Server error").
Proof.
  apply (non_string_code_is_server_error (crypto := Demo.crypto) Demo.env
           Sample.numeric_code_request Demo.pending_store
           [("mobile", VStr Demo.phone);
            ("otp", VNum (S754_finite false 4321 0))]%string).
  all: reflexivity.
Defined.

Lemma issued_code_expires_witness :
  verify_otp (crypto := Demo.crypto) Demo.env_late (Demo.verify_request "5500")
    (fst (request_otp (crypto := Demo.crypto) Demo.env Demo.otp_request
            Demo.empty_store)) =
    (fst (request_otp (crypto := Demo.crypto) Demo.env Demo.otp_request
            Demo.empty_store),
     error_response 400 "OTP expired").
Proof.
  apply (issued_code_expires (crypto := Demo.crypto) Demo.env Demo.env_late
           Demo.otp_request Demo.empty_store
           [("mobile", VStr Demo.phone)]%string Demo.phone
           ltac:(vm_compute; reflexivity) eq_refl eq_refl ltac:(simpl; lia)
           (Demo.verify_request "5500")
           [("mobile", VStr Demo.phone); ("otp", VStr "5500")]%string "5500").
  all: reflexivity.
Defined.

Lemma request_otp_replaces_pending_code_witness :
  verify_otp (crypto := Demo.crypto) Demo.env_minute (Demo.verify_request "4321")
    (fst (request_otp (crypto := Demo.crypto) Demo.env Demo.otp_request
            Demo.pending_store)) =
    (fst (request_otp (crypto := Demo.crypto) Demo.env Demo.otp_request
            Demo.pending_store),
     error_response 400 "Invalid OTP").
Proof.
  apply (request_otp_replaces_pending_code (crypto := Demo.crypto)
           Demo.env Demo.env_minute Demo.otp_request (Demo.verify_request "4321")
           Demo.pending_store
           [("mobile", VStr Demo.phone)]%string
           [("mobile", VStr Demo.phone); ("otp", VStr "4321")]%string
           Demo.phone "4321").
  all: try reflexivity.
  simpl. lia.
Defined.

Lemma scheme_and_token_header_witness :
  authMiddleware (crypto := Demo.crypto) Demo.env Demo.play_request
    Demo.empty_store = Next 7%N Demo.empty_store <->
  jwt_verify (Crypto := Demo.crypto) "jwt1111111" (now Demo.env) = Some 7%N.
Proof.
  apply (scheme_and_token_header (crypto := Demo.crypto) Demo.env Demo.play_request
           Demo.empty_store "Bearer" "jwt1111111" eq_refl eq_refl eq_refl 7%N).
Defined.

Lemma get_routes_read_only_witness :
  fst (app (crypto := Demo.crypto) GetHistory Demo.env Demo.get_request
         Demo.played_store) = Demo.played_store.
Proof.
  apply (get_routes_read_only (crypto := Demo.crypto) GetHistory Demo.env
           Demo.get_request Demo.played_store).
  left. reflexivity.
Defined.

Lemma play_validates_choice_witness :
  (status (snd (app (crypto := Demo.crypto) PostPlay Demo.env
                  Sample.bad_choice_request Demo.played_store)) = 200 ->
   exists uc, own_property "choice" [("choice", VStr "rock")]%string = VStr uc /\
              uc ∈ choices) /\
  ((~ exists uc, own_property "choice" [("choice", VStr "rock")]%string = VStr uc /\
                 uc ∈ choices) ->
   app (crypto := Demo.crypto) PostPlay Demo.env Sample.bad_choice_request
     Demo.played_store = (Demo.played_store, error_response 400 "Invalid choice")).
Proof.
  apply (play_validates_choice (crypto := Demo.crypto) Demo.env
           Sample.bad_choice_request Demo.played_store 7%N
           [("choice", VStr "rock")]%string).
  - vm_compute. reflexivity.
  - reflexivity.
Defined.

Lemma other_identities_unaffected_witness :
  snd (history 8%N (fst (app (crypto := Demo.crypto) PostPlay Demo.env
                           Demo.play_request Demo.played_store))) =
    snd (history 8%N Demo.played_store) /\
  snd (scoreboard 8%N (fst (app (crypto := Demo.crypto) PostPlay Demo.env
                              Demo.play_request Demo.played_store))) =
    snd (scoreboard 8%N Demo.played_store).
Proof.
  apply (other_identities_unaffected (crypto := Demo.crypto) PostPlay Demo.env
           Demo.play_request Demo.played_store 8%N).
  intros uid Huid. vm_compute in Huid. injection Huid as <-. discriminate.
Defined.

Lemma play_adds_one_to_the_scoreboard_witness :
  exists before after,
    snd (scoreboard 7%N Demo.played_store) = ok_response (StatsBody before) /\
    snd (scoreboard 7%N (fst (app (crypto := Demo.crypto) PostPlay Demo.env
                                Demo.play_request Demo.played_store))) =
      ok_response (StatsBody after) /\
    total after = S (total before) /\
    (win before <= win after)%nat /\ (lose before <= lose after)%nat /\
    (draw before <= draw after)%nat.
Proof.
  apply (play_adds_one_to_the_scoreboard (crypto := Demo.crypto) Demo.env
           Demo.play_request Demo.played_store 7%N).
  - vm_compute. reflexivity.
  - vm_compute. reflexivity.
Defined.

Lemma new_round_heads_the_history_witness :
  exists g rest,
    games (fst (app (crypto := Demo.crypto) PostPlay Sample.env_after
                  Demo.play_request Demo.played_store)) =
      games Demo.played_store ++ [g] /\
    snd (history 7%N (fst (app (crypto := Demo.crypto) PostPlay Sample.env_after
                             Demo.play_request Demo.played_store))) =
      ok_response (HistoryBody (g :: rest)).
Proof.
  apply (new_round_heads_the_history (crypto := Demo.crypto) Sample.env_after
           Demo.play_request Demo.played_store 7%N).
  - vm_compute. reflexivity.
  - vm_compute. reflexivity.
  - intros g Hg. apply list_elem_of_filter in Hg as [_ Hg].
    unfold Demo.played_store in Hg. cbn [games] in Hg.
    rewrite !elem_of_cons, elem_of_nil in Hg.
    destruct Hg as [-> | [-> | [-> | []]]]; simpl; lia.
Defined.

Example history_after_a_new_round :
  snd (history 7%N (fst (app (crypto := Demo.crypto) PostPlay Sample.env_after
                           Demo.play_request Demo.played_store))) =
    ok_response (HistoryBody [Sample.round_new; Demo.round_a; Demo.round_b]).
Proof. vm_compute. reflexivity. Qed.

(** Twelve rounds: /history returns the ten created at clocks 12 down to 3. *)
Example history_of_twelve_rounds :
  snd (history 7%N Sample.busy_store) =
    ok_response (HistoryBody (take 10 (reverse Sample.twelve_rounds))).
Proof. vm_compute. reflexivity. Qed.

Lemma padded_phone_is_the_same_identity_witness :
  request_otp (crypto := Demo.crypto) Demo.env Sample.padded_request
    Demo.empty_store =
  request_otp (crypto := Demo.crypto) Demo.env Demo.otp_request Demo.empty_store.
Proof.
  apply (padded_phone_is_the_same_identity (crypto := Demo.crypto) Demo.env
           Sample.padded_request Demo.otp_request Demo.empty_store
           [("mobile", VStr "  9876543210 ")]%string
           [("mobile", VStr Demo.phone)]%string "  9876543210 ").
  all: reflexivity.
Defined.

Lemma issued_token_opens_the_gate_witness :
  exists user,
    users Demo.pending_store !! JsString.trim Demo.phone = Some user /\
    "jwt1111111"%string =
      jwt_sign (Crypto := Demo.crypto) (user_id user) (now Demo.env) /\
    (jwt_verify (Crypto := Demo.crypto) "jwt1111111" (now Demo.env_minute) =
       Some (user_id user) ->
     forall st',
       authMiddleware (crypto := Demo.crypto) Demo.env_minute Demo.play_request st' =
         Next (user_id user) st').
Proof.
  apply (issued_token_opens_the_gate (crypto := Demo.crypto) Demo.env
           Demo.env_minute (Demo.verify_request "4321") Demo.play_request
           Demo.pending_store
           [("mobile", VStr Demo.phone); ("otp", VStr "4321")]%string
           Demo.phone "jwt1111111").
  all: reflexivity.
Defined.

(** The whole flow on the sample instance: the code 4321 is verified, and
    the token that comes back lets caller 7 through the gate. *)
Example login_then_gate :
  snd (verify_otp (crypto := Demo.crypto) Demo.env (Demo.verify_request "4321")
         Demo.pending_store) = ok_response (TokenBody "jwt1111111") /\
  authMiddleware (crypto := Demo.crypto) Demo.env_minute Demo.play_request
    Demo.empty_store = Next 7%N Demo.empty_store.
Proof. vm_compute. auto. Qed.

(** The gate on a request without the header, with a header of one piece
    only, and with a token that does not verify. *)
Example gate_answers :
  authMiddleware (crypto := Demo.crypto) Demo.env Sample.no_header_request
    Demo.empty_store =
    Sent (error_response 401 "No token provided") Demo.empty_store /\
  authMiddleware (crypto := Demo.crypto) Demo.env Sample.bare_token_request
    Demo.empty_store =
    Sent (error_response 401 "No token provided") Demo.empty_store /\
  authMiddleware (crypto := Demo.crypto) Demo.env Demo.forged_request
    Demo.empty_store =
    Sent (error_response 401 "Invalid or expired token") Demo.empty_store.
Proof. vm_compute. auto. Qed.


(** An invalid choice on the sample instance. *)
Example play_rock :
  app (crypto := Demo.crypto) PostPlay Demo.env Sample.bad_choice_request
    Demo.played_store = (Demo.played_store, error_response 400 "Invalid choice").
Proof. vm_compute. reflexivity. Qed.

(** C5 on the sample instance: the matching code 4321 takes the success
    branch, and the Identity of that phone number is left with no hash and
    no expiry. *)
Lemma verify_otp_changes_only_on_success_witness :
  exists fields mobile user cleared,
    body (Demo.verify_request "4321") = VObj fields /\
    own_property "mobile" fields = VStr mobile /\
    users Demo.pending_store !! JsString.trim mobile = Some user /\
    otpHash user <> None /\ otpExpiry user <> None /\
    otpHash cleared = None /\ otpExpiry cleared = None /\
    user_id cleared = user_id user /\
    user_createdAt cleared = user_createdAt user /\
    fst (verify_otp (crypto := Demo.crypto) Demo.env (Demo.verify_request "4321")
           Demo.pending_store) =
      mkStore (<[JsString.trim mobile := cleared]> (users Demo.pending_store))
              (games Demo.pending_store) /\
    snd (verify_otp (crypto := Demo.crypto) Demo.env (Demo.verify_request "4321")
           Demo.pending_store) =
      ok_response
        (TokenBody (jwt_sign (Crypto := Demo.crypto) (user_id user) (now Demo.env))).
Proof.
  destruct (verify_otp_changes_only_on_success (crypto := Demo.crypto) Demo.env
              (Demo.verify_request "4321") Demo.pending_store)
    as [[Hsame _]|Hsuccess].
  - apply (f_equal (fun st => otpHash <$> users st !! Demo.phone)) in Hsame.
    vm_compute in Hsame. discriminate Hsame.
  - exact Hsuccess.
Defined.

Example verify_clears_the_pending_code :
  users (fst (verify_otp (crypto := Demo.crypto) Demo.env (Demo.verify_request "4321")
                Demo.pending_store)) !! Demo.phone =
    Some (mkUser 7%N None None 1000).
Proof. vm_compute. reflexivity. Qed.

(** C9, as stated, fails: after two spaces, or after a TAB, the second
    whitespace-separated part of the header is a token that verifies, and
    the gate answers 401, because it looks at the second piece between
    single spaces. *)
Lemma second_whitespace_part_is_not_the_piece :
  whitespace_parts "Bearer  jwt1111111" !! 1%nat = Some "jwt1111111"%string /\
  whitespace_parts Sample.tab_header !! 1%nat = Some "jwt1111111"%string /\
  jwt_verify (Crypto := Demo.crypto) "jwt1111111" (now Demo.env) = Some 7%N /\
  authMiddleware (crypto := Demo.crypto) Demo.env Sample.two_spaces_request
    Demo.empty_store =
    Sent (error_response 401 "No token provided") Demo.empty_store /\
  authMiddleware (crypto := Demo.crypto) Demo.env Sample.tab_request
    Demo.empty_store =
    Sent (error_response 401 "No token provided") Demo.empty_store.
Proof. vm_compute. auto 6. Qed.
